(** * Credit-gated message dispatch of the bomber server (dist/index.js)

    A shallow embedding of the server bundle: the drizzle tables are lists
    of rows, the storage class is a set of functions on the database, the
    outbound SMS gateway is an oracle living in the world state, and every
    express route is a computation in a small state monad that threads the
    database and the log of gateway calls. *)

From Stdlib Require Import ZArith Lia.
From stdpp Require Import base option list strings pretty sorting.

Local Open Scope Z_scope.

(** ** shared/schema.ts: the rows of the four tables *)

Module User.
Record t := mk {
  id : Z;
  username : string;
  password : string;
  fullName : string;
  phone : string;
  messagesRemaining : Z;
  messagesSent : Z;
  lastActivity : Z;
  isAdmin : bool;
  isActive : bool;
  createdAt : Z
}.

(** The three columns written by the ledger updates. *)
Definition set_ledger (remaining sent activity : Z) (u : t) : t :=
  mk (id u) (username u) (password u) (fullName u) (phone u)
     remaining sent activity (isAdmin u) (isActive u) (createdAt u).

Definition set_messagesRemaining (remaining : Z) (u : t) : t :=
  set_ledger remaining (messagesSent u) (lastActivity u) u.
End User.

Module Message.
Record t := mk {
  id : Z;
  userId : Z;
  phone : string;
  message : string;
  status : string;
  type : string;
  createdAt : Z
}.

Definition set_status (s : string) (m : t) : t :=
  mk (id m) (userId m) (phone m) (message m) s (type m) (createdAt m).
End Message.

Module Otp.
Record t := mk {
  id : Z;
  phone : string;
  code : string;
  expiresAt : Z;
  verified : bool;
  createdAt : Z
}.

Definition set_verified (b : bool) (o : t) : t :=
  mk (id o) (phone o) (code o) (expiresAt o) b (createdAt o).
End Otp.

Module ProtectedNumber.
Record t := mk {
  id : Z;
  phone : string;
  userId : option Z;
  createdAt : Z
}.
End ProtectedNumber.

(** The object handed to [createMessage]: [status] and [type] are optional
    keys of the object literal. *)
Record InsertMessage := mkInsertMessage {
  im_userId : Z;
  im_phone : string;
  im_message : string;
  im_status : option string;
  im_type : option string
}.

(** The object handed to [createUser] (the body picked by
    [insertUserSchema], with the password already hashed). *)
Record InsertUser := mkInsertUser {
  iu_username : string;
  iu_password : string;
  iu_fullName : string;
  iu_phone : string;
  iu_isAdmin : option bool
}.

(** ** server/db.ts: the database

    Each table is the list of its rows in insertion order; a [serial]
    column draws from the table's sequence. *)
Record Db := mkDb {
  users : list User.t;
  messages : list Message.t;
  otps : list Otp.t;
  protectedNumbers : list ProtectedNumber.t;
  users_id_seq : Z;
  messages_id_seq : Z
}.

Definition set_users (f : list User.t → list User.t) (d : Db) : Db :=
  mkDb (f (users d)) (messages d) (otps d) (protectedNumbers d)
       (users_id_seq d) (messages_id_seq d).

Definition set_messages (f : list Message.t → list Message.t) (d : Db) : Db :=
  mkDb (users d) (f (messages d)) (otps d) (protectedNumbers d)
       (users_id_seq d) (messages_id_seq d).

Definition set_otps (f : list Otp.t → list Otp.t) (d : Db) : Db :=
  mkDb (users d) (messages d) (f (otps d)) (protectedNumbers d)
       (users_id_seq d) (messages_id_seq d).

(** [db.update(table).set(f).where(P)]: every row satisfying [P] is
    rewritten by [f]. *)
Definition sql_update {A} (P : A → Prop) `{∀ x, Decision (P x)}
    (f : A → A) (rows : list A) : list A :=
  (λ r, if decide (P r) then f r else r) <$> rows.

(** [db.select().from(table).where(P).limit(1)], then
    [result.length > 0 ? result[0] : undefined]. *)
Definition sql_select_first {A} (P : A → Prop) `{∀ x, Decision (P x)}
    (rows : list A) : option A :=
  head (filter P rows).

(** ** The outbound SMS gateway *)

Inductive GatewayCall :=
| CustomSms (phone message : string)      (* .../send_sms.php?phone=&message= *)
| BomberSms (mobile : string) (repeat : Z). (* hardboomber...?mobile=&repeat=  *)

(** What [await response.json()] yields for the custom endpoint.
    [gw_messageId = None] stands for [JSON.parse(data.api_response)]
    throwing; [Some m] is the extracted message id, [m = None] when the
    optional chain gives [undefined]. *)
Record GatewayJson := mkGatewayJson {
  gw_status : string;
  gw_messageId : option (option string)
}.

Inductive FetchOutcome :=
| FetchThrows
| FetchResponse (ok : bool) (json : option GatewayJson).

(** The object returned by [sendCustomMessage] and [sendBomberMessage]. *)
Record SendResult := mkSendResult {
  success : bool;
  messageId : option string;
  error : option string
}.

(** ** The world a request handler runs in

    [clock] is what [new Date()] reads (milliseconds), [fetch k c] is the
    outcome of the [k]-th gateway call of the run when that call is [c],
    [gateway_log] records the calls made so far. [hashPassword] and
    [login_error] stand for scrypt with a random salt and for passport's
    [req.login] callback. *)
Record World := mkWorld {
  db : Db;
  clock : Z;
  fetch : nat → GatewayCall → FetchOutcome;
  gateway_log : list GatewayCall;
  hashPassword : string → string;
  login_error : User.t → option string
}.

Definition set_db (f : Db → Db) (w : World) : World :=
  mkWorld (f (db w)) (clock w) (fetch w) (gateway_log w)
          (hashPassword w) (login_error w).

(** ** The monad of handlers: state passing over [World] *)

Definition M (A : Type) : Type := World → A * World.

Global Instance M_ret : MRet M := λ A a w, (a, w).

Global Instance M_bind : MBind M :=
  λ A B k m w, k (m w).1 (m w).2.

Definition query {A} (f : Db → A) : M A := λ w, (f (db w), w).
Definition execute (f : Db → Db) : M unit := λ w, (tt, set_db f w).
Definition newDate : M Z := λ w, (clock w, w).

Definition log_call (c : GatewayCall) (w : World) : World :=
  mkWorld (db w) (clock w) (fetch w) (gateway_log w ++ [c])
          (hashPassword w) (login_error w).

(** One [await fetch(url)]: the oracle answers and the call is logged. *)
Definition gatewayFetch (c : GatewayCall) : M FetchOutcome :=
  λ w, (fetch w (length (gateway_log w)) c, log_call c w).

(** ** server/storage.ts: [DatabaseStorage] *)

Definition getUser (id : Z) (d : Db) : option User.t :=
  sql_select_first (λ u, User.id u = id) (users d).

(** [createUser]: the insert violates the unique constraint on
    [users.username] when the name is taken; the driver then throws and
    nothing is stored. *)
Definition createUser (insertUser : InsertUser) (now : Z) (d : Db)
    : (string + User.t) * Db :=
  if decide (iu_username insertUser ∈ User.username <$> users d) then
    (inl "duplicate key value violates unique constraint", d)
  else
    let user :=
      User.mk (users_id_seq d) (iu_username insertUser)
        (iu_password insertUser) (iu_fullName insertUser)
        (iu_phone insertUser) 5 0 now
        (default false (iu_isAdmin insertUser)) true now in
    (inr user,
     mkDb (users d ++ [user]) (messages d) (otps d) (protectedNumbers d)
          (users_id_seq d + 1) (messages_id_seq d)).

(** [updateUserMessageCount]: the new values are computed in JavaScript
    from the row read first, then written to the rows with that id. *)
Definition updateUserMessageCount (id : Z) (now : Z) (d : Db) : Db :=
  match sql_select_first (λ u, User.id u = id) (users d) with
  | Some user =>
      set_users (sql_update (λ u, User.id u = id)
        (User.set_ledger (Z.max 0 (User.messagesRemaining user - 1))
                         (User.messagesSent user + 1) now)) d
  | None => d
  end.

(** [addUserCredits]: [messages_remaining + credits], evaluated by the
    database on each row. *)
Definition addUserCredits (id : Z) (credits : Z) (d : Db) : Db :=
  set_users (sql_update (λ u, User.id u = id)
    (λ u, User.set_messagesRemaining (User.messagesRemaining u + credits) u)) d.

(** [removeUserCredits]: [GREATEST(0, messages_remaining - credits)]. *)
Definition removeUserCredits (id : Z) (credits : Z) (d : Db) : Db :=
  set_users (sql_update (λ u, User.id u = id)
    (λ u, User.set_messagesRemaining
            (Z.max 0 (User.messagesRemaining u - credits)) u)) d.

(** [createMessage]: the object literal spreads [insertMessage] and then
    sets [status: "sent"], so a status given by the caller is overwritten;
    a missing [type] takes the column default. *)
Definition createMessage (insertMessage : InsertMessage) (now : Z) (d : Db)
    : Message.t * Db :=
  let message :=
    Message.mk (messages_id_seq d) (im_userId insertMessage)
      (im_phone insertMessage) (im_message insertMessage)
      "sent" (default "custom" (im_type insertMessage)) now in
  (message,
   mkDb (users d) (messages d ++ [message]) (otps d) (protectedNumbers d)
        (users_id_seq d) (messages_id_seq d + 1)).

Definition updateMessageStatus (id : Z) (status : string) (d : Db) : Db :=
  set_messages (sql_update (λ m, Message.id m = id) (Message.set_status status)) d.

(** [orderBy(desc(otps.createdAt)).limit(1)] over the rows of one phone. *)
Definition newer (best : option Otp.t) (r : Otp.t) : option Otp.t :=
  match best with
  | None => Some r
  | Some b => if Otp.createdAt b <? Otp.createdAt r then Some r else Some b
  end.

Definition getLatestOtp (phone : string) (d : Db) : option Otp.t :=
  foldl newer None (filter (λ r, Otp.phone r = phone) (otps d)).

Definition verifyOtp (id : Z) (d : Db) : Db :=
  set_otps (sql_update (λ r, Otp.id r = id) (Otp.set_verified true)) d.

Definition isNumberProtected (phone : string) (d : Db) : bool :=
  bool_decide (0 < length (filter (λ r, ProtectedNumber.phone r = phone)
                                  (protectedNumbers d)))%nat.

(** ** server/routes.ts: the gateway client *)

(** The part of [sendCustomMessage] after the fetch. *)
Definition customResult (out : FetchOutcome) : SendResult :=
  match out with
  | FetchResponse _ (Some data) =>
      if decide (gw_status data = "success") then
        match gw_messageId data with
        | Some messageId => mkSendResult true messageId None
        | None => mkSendResult true None None
        end
      else mkSendResult false None (Some "Failed to send message")
  | _ => mkSendResult false None (Some "Error processing request")
  end.

Definition sendCustomMessage (phone message : string) : M SendResult :=
  out ← gatewayFetch (CustomSms phone message);
  mret (customResult out).

Definition bomberResult (out : FetchOutcome) : SendResult :=
  match out with
  | FetchResponse true _ => mkSendResult true None None
  | FetchResponse false _ =>
      mkSendResult false None (Some "Failed to send bomber messages")
  | FetchThrows => mkSendResult false None (Some "Error processing request")
  end.

Definition sendBomberMessage (phone : string) (repeat : Z) : M SendResult :=
  out ← gatewayFetch (BomberSms phone repeat);
  mret (bomberResult out).

(** ** Requests and responses *)

#[local] Set Warnings "-register-all".
Inductive Json :=
| JUndefined
| JBool (b : bool)
| JNum (n : Z)
| JStr (s : string)
| JArr (items : list Json)
| JObj (fields : list (string * Json)).

(** [res.status(code).json(body)] *)
Record Response := mkResponse {
  status : Z;
  body : Json
}.

Definition message_json (code : Z) (message : string) : Response :=
  mkResponse code (JObj [("message", JStr message)]).

(** [next(error)]: the error middleware of server/index.ts answers with
    [err.status || err.statusCode || 500] and the error's message; driver
    errors carry no status. *)
Definition next_error (message : string) : Response :=
  message_json 500 message.

(** [s || fallback] on a possibly undefined string. *)
Definition js_or (s : option string) (fallback : string) : string :=
  match s with
  | Some s => if decide (s = "") then fallback else s
  | None => fallback
  end.

(** Truthiness of a possibly undefined string, as in [if (message)]. *)
Definition truthy (s : option string) : bool :=
  match s with
  | Some s => bool_decide (s ≠ "")
  | None => false
  end.

Definition json_of_string_opt (s : option string) : Json :=
  from_option JStr JUndefined s.

Definition json_of_result (r : SendResult) : Json :=
  JObj [("success", JBool (success r));
        ("messageId", json_of_string_opt (messageId r));
        ("error", json_of_string_opt (error r))].

Record OtpBody := mkOtpBody {
  otp_phone : string;
  otp_code : string
}.

Record SendMessageBody := mkSendMessageBody {
  sm_phone : string;
  sm_message : string
}.

Record BomberBody := mkBomberBody {
  bo_phone : string;
  bo_repeat : Z;
  bo_message : option string
}.

Record CreditRequestBody := mkCreditRequestBody {
  cr_reason : string;
  cr_credits : Z
}.

(** The body of /api/admin/approve-credit-request, read without a schema. *)
Record ApproveBody := mkApproveBody {
  ap_messageId : Z;
  ap_userId : Z;
  ap_credits : Z
}.

(** ** shared/schema.ts: the zod schemas, on bodies already typed.
    Numbers are integers in this embedding. *)

Definition length_between (lo hi : nat) (s : string) : bool :=
  bool_decide (lo ≤ String.length s ≤ hi)%nat.

Definition insertUserSchema (b : InsertUser) : bool := true.

Definition validateOtpSchema (b : OtpBody) : bool :=
  length_between 10 15 (otp_phone b) && bool_decide (String.length (otp_code b) = 6%nat).

Definition sendMessageSchema (b : SendMessageBody) : bool :=
  length_between 10 15 (sm_phone b) && length_between 1 160 (sm_message b).

Definition customMessageSchema (b : SendMessageBody) : bool :=
  length_between 10 15 (sm_phone b) && length_between 1 160 (sm_message b).

Definition bomberSchema (b : BomberBody) : bool :=
  length_between 10 15 (bo_phone b) && (1 <=? bo_repeat b)
  && from_option (length_between 0 50) true (bo_message b).

Definition creditRequestSchema (b : CreditRequestBody) : bool :=
  length_between 10 200 (cr_reason b)
  && (1 <=? cr_credits b) && (cr_credits b <=? 100).

(** ** server/auth.ts and server/routes.ts: middleware *)

(** passport's [deserializeUser]: the session holds the user id and the
    row is read again on every request. *)
Definition deserializeUser (session : option Z) : M (option User.t) :=
  match session with
  | Some id => query (getUser id)
  | None => mret None
  end.

Definition isAuthenticated (req_user : option User.t)
    (next : User.t → M Response) : M Response :=
  match req_user with
  | Some user => next user
  | None => mret (message_json 401 "Unauthorized")
  end.

Definition isAdmin (req_user : option User.t)
    (next : User.t → M Response) : M Response :=
  match req_user with
  | Some user =>
      if User.isAdmin user then next user
      else mret (message_json 403 "Forbidden")
  | None => mret (message_json 403 "Forbidden")
  end.

(** [validateRequest(schema)]; the [errors] array of the 400 answer, whose
    text comes from zod, is left out. *)
Definition validateRequest {B} (schema : B → bool) (body : B)
    (next : M Response) : M Response :=
  if schema body then next
  else mret (message_json 400 "Validation error").

(** Storage calls lifted to handlers; timestamps are read from the clock. *)
Definition storage_createMessage (insertMessage : InsertMessage) : M Message.t :=
  λ w, let r := createMessage insertMessage (clock w) (db w) in
       (r.1, set_db (λ _, r.2) w).

Definition storage_createUser (insertUser : InsertUser) : M (string + User.t) :=
  λ w, let r := createUser insertUser (clock w) (db w) in
       (r.1, set_db (λ _, r.2) w).

(** [await hashPassword(password)] and [req.login(user, callback)]. *)
Definition hash_password (password : string) : M string :=
  λ w, (hashPassword w password, w).

Definition req_login (user : User.t) : M (option string) :=
  λ w, (login_error w user, w).

Definition storage_updateUserMessageCount (id : Z) : M unit :=
  now ← newDate;
  execute (updateUserMessageCount id now).

(** ** server/routes.ts: the routes *)

(** POST /api/verify-otp *)
Definition post_verify_otp (body : OtpBody) : M Response :=
  validateRequest validateOtpSchema body (
    otpRecord ← query (getLatestOtp (otp_phone body));
    match otpRecord with
    | None => mret (message_json 400 "No verification code found")
    | Some otpRecord =>
        if Otp.verified otpRecord then
          mret (message_json 400 "Code already verified")
        else
          now ← newDate;
          if Otp.expiresAt otpRecord <? now then
            mret (message_json 400 "Verification code expired")
          else if decide (Otp.code otpRecord ≠ otp_code body) then
            mret (message_json 400 "Invalid verification code")
          else
            execute (verifyOtp (Otp.id otpRecord));;
            mret (message_json 200 "Verification successful")
    end).

Definition user_json (user : User.t) : Json :=
  JObj [("id", JNum (User.id user));
        ("username", JStr (User.username user));
        ("fullName", JStr (User.fullName user));
        ("phone", JStr (User.phone user));
        ("messagesRemaining", JNum (User.messagesRemaining user));
        ("messagesSent", JNum (User.messagesSent user));
        ("isAdmin", JBool (User.isAdmin user));
        ("isActive", JBool (User.isActive user))].

(** POST /api/complete-registration *)
Definition post_complete_registration (body : InsertUser) : M Response :=
  validateRequest insertUserSchema body (
    otpRecord ← query (getLatestOtp (iu_phone body));
    if negb (from_option Otp.verified false otpRecord) then
      mret (message_json 400 "Phone not verified")
    else
      hashed ← hash_password (iu_password body);
      created ← storage_createUser
        (mkInsertUser (iu_username body) hashed (iu_fullName body)
                      (iu_phone body) (iu_isAdmin body));
      match created with
      | inl err => mret (next_error err)
      | inr user =>
          err ← req_login user;
          match err with
          | Some err => mret (next_error err)
          | None => mret (mkResponse 201 (user_json user))
          end
      end).

(** POST /api/send-message *)
Definition post_send_message (session : option Z) (body : SendMessageBody)
    : M Response :=
  req_user ← deserializeUser session;
  isAuthenticated req_user (λ user,
  validateRequest sendMessageSchema body (
    if negb (User.isActive user) then
      mret (message_json 403 "Your account is disabled")
    else if User.messagesRemaining user <=? 0 then
      mret (message_json 403 "You have no messages remaining")
    else
      result ← sendCustomMessage (sm_phone body) (sm_message body);
      if negb (success result) then
        mret (message_json 500 (js_or (error result) "Failed to send message"))
      else
        storage_updateUserMessageCount (User.id user);;
        savedMessage ← storage_createMessage
          (mkInsertMessage (User.id user) (sm_phone body) (sm_message body)
                           None None);
        mret (mkResponse 200 (JObj
          [("message", JStr "Message sent successfully");
           ("messageId", json_of_string_opt (messageId result));
           ("id", JNum (Message.id savedMessage));
           ("messagesRemaining", JNum (User.messagesRemaining user - 1));
           ("messagesSent", JNum (User.messagesSent user + 1))])))).

(** POST /api/admin/custom-message *)
Definition post_admin_custom_message (session : option Z)
    (body : SendMessageBody) : M Response :=
  req_user ← deserializeUser session;
  isAdmin req_user (λ _,
  validateRequest customMessageSchema body (
    result ← sendCustomMessage (sm_phone body) (sm_message body);
    if negb (success result) then
      mret (message_json 500 (js_or (error result) "Failed to send message"))
    else
      mret (mkResponse 200 (JObj
        [("message", JStr ("Successfully sent message to " +:+ sm_phone body));
         ("messageId", json_of_string_opt (messageId result))])))).

(** The loop of the admin bomber,
    [for (let i = 0; i < repeat; i++) { ... }]: [n] is the number of
    iterations still to run, [Z.to_nat repeat] at entry. *)
Fixpoint admin_bomber_loop (n : nat) (phone message : string)
    (results : list SendResult) (success_count : Z)
    : M (list SendResult * Z) :=
  match n with
  | O => mret (results, success_count)
  | S n =>
      result2 ← sendCustomMessage phone message;
      admin_bomber_loop n phone message (results ++ [result2])
        (if success result2 then success_count + 1 else success_count)
  end.

(** POST /api/admin/bomber *)
Definition post_admin_bomber (session : option Z) (body : BomberBody)
    : M Response :=
  req_user ← deserializeUser session;
  isAdmin req_user (λ _,
  validateRequest bomberSchema body (
    isProtected ← query (isNumberProtected (bo_phone body));
    if isProtected : bool then
      mret (message_json 403 "This number is protected from bomber messages")
    else if truthy (bo_message body) then
      r ← admin_bomber_loop (Z.to_nat (bo_repeat body)) (bo_phone body)
            (default "" (bo_message body)) [] 0;
      mret (mkResponse 200 (JObj
        [("message", JStr ("Sent " +:+ pretty r.2 +:+ " of "
                           +:+ pretty (bo_repeat body)
                           +:+ " messages successfully"));
         ("results", JArr (json_of_result <$> r.1))]))
    else
      result ← sendBomberMessage (bo_phone body) (bo_repeat body);
      if negb (success result) then
        mret (message_json 500
                (js_or (error result) "Failed to send bomber messages"))
      else
        mret (message_json 200 ("Requested " +:+ pretty (bo_repeat body)
                                +:+ " messages to be sent")))).

(** POST /api/admin/approve-credit-request: no [validateRequest] here. *)
Definition post_admin_approve_credit_request (session : option Z)
    (body : ApproveBody) : M Response :=
  req_user ← deserializeUser session;
  isAdmin req_user (λ _,
    execute (addUserCredits (ap_userId body) (ap_credits body));;
    execute (updateMessageStatus (ap_messageId body) "approved");;
    storage_createMessage
      (mkInsertMessage (ap_userId body) "SYSTEM"
         ("ADMIN APPROVED " +:+ pretty (ap_credits body) +:+ " credit request")
         (Some "sent") (Some "system"));;
    mret (mkResponse 200 (JObj
      [("message", JStr ("Successfully approved " +:+ pretty (ap_credits body)
                         +:+ " credits"));
       ("credits", JNum (ap_credits body))]))).


(** POST /api/request-credits *)
Definition post_request_credits (session : option Z) (body : CreditRequestBody)
    : M Response :=
  req_user ← deserializeUser session;
  isAuthenticated req_user (λ user,
  validateRequest creditRequestSchema body (
    storage_createMessage
      (mkInsertMessage (User.id user) "SYSTEM"
         ("CREDIT REQUEST - User: " +:+ User.username user
          +:+ ", Credits: " +:+ pretty (cr_credits body)
          +:+ ", Reason: " +:+ cr_reason body)
         (Some "pending") (Some "credit_request"));;
    mret (mkResponse 200 (JObj
      [("message", JStr "Credit request submitted successfully");
       ("credits", JNum (cr_credits body))])))).

(** POST /api/bomber *)
Definition post_bomber (session : option Z) (body : BomberBody) : M Response :=
  req_user ← deserializeUser session;
  isAuthenticated req_user (λ user,
  validateRequest bomberSchema body (
    if User.messagesRemaining user <? bo_repeat body then
      mret (message_json 400 "You don't have enough credits")
    else if negb (User.isActive user) then
      mret (message_json 403 "Your account is suspended")
    else
      isProtected ← query (isNumberProtected (bo_phone body));
      if isProtected : bool then
        mret (message_json 403 "This number is protected from bomber messages")
      else
        result ← sendBomberMessage (bo_phone body) (bo_repeat body);
        if negb (success result) then
          mret (message_json 500 (js_or (error result) "Failed to send messages"))
        else
          execute (removeUserCredits (User.id user) (bo_repeat body));;
          storage_updateUserMessageCount (User.id user);;
          storage_createMessage
            (mkInsertMessage (User.id user) (bo_phone body)
               ("BOMBER: Sent " +:+ pretty (bo_repeat body) +:+ " messages")
               (Some "sent") (Some "bomber"));;
          mret (mkResponse 200 (JObj
            [("message", JStr ("Successfully sent " +:+ pretty (bo_repeat body)
                               +:+ " messages"));
             ("messagesRemaining",
              JNum (User.messagesRemaining user - bo_repeat body))])))).

(** ** server/storage.ts: the rest of [DatabaseStorage] *)

Definition set_protectedNumbers
    (f : list ProtectedNumber.t → list ProtectedNumber.t) (d : Db) : Db :=
  mkDb (users d) (messages d) (otps d) (f (protectedNumbers d))
       (users_id_seq d) (messages_id_seq d).

Definition set_isActive (active : bool) (u : User.t) : User.t :=
  User.mk (User.id u) (User.username u) (User.password u) (User.fullName u)
    (User.phone u) (User.messagesRemaining u) (User.messagesSent u)
    (User.lastActivity u) (User.isAdmin u) active (User.createdAt u).

Definition set_password (password : string) (u : User.t) : User.t :=
  User.mk (User.id u) (User.username u) password (User.fullName u)
    (User.phone u) (User.messagesRemaining u) (User.messagesSent u)
    (User.lastActivity u) (User.isAdmin u) (User.isActive u) (User.createdAt u).

Definition set_lastActivity (now : Z) (u : User.t) : User.t :=
  User.set_ledger (User.messagesRemaining u) (User.messagesSent u) now u.

Definition getUserByPhone (phone : string) (d : Db) : option User.t :=
  sql_select_first (λ u, User.phone u = phone) (users d).

Definition updateUserLastActivity (id : Z) (now : Z) (d : Db) : Db :=
  set_users (sql_update (λ u, User.id u = id) (set_lastActivity now)) d.

Definition toggleUserActive (id : Z) (active : bool) (d : Db) : Db :=
  set_users (sql_update (λ u, User.id u = id) (set_isActive active)) d.

Definition updateUserPassword (id : Z) (password : string) (d : Db) : Db :=
  set_users (sql_update (λ u, User.id u = id) (set_password password)) d.

(** [orderBy(desc(messages.createdAt))]; rows created at the same instant
    come in the order the merge sort leaves them. *)
Definition newest_first (a b : Message.t) : Prop :=
  Message.createdAt b ≤ Message.createdAt a.

Global Instance newest_first_dec a b : Decision (newest_first a b) :=
  decide (Message.createdAt b ≤ Message.createdAt a).

Definition getUserMessages (userId : Z) (d : Db) : list Message.t :=
  merge_sort newest_first (filter (λ m, Message.userId m = userId) (messages d)).

Definition deleteMessage (id : Z) (d : Db) : Db :=
  set_messages (filter (λ m, Message.id m ≠ id)) d.

(** [deleteMessages]: [if (ids.length === 0) return;] then
    [delete ... where id in ids]. *)
Definition deleteMessages (ids : list Z) (d : Db) : Db :=
  match ids with
  | [] => d
  | _ => set_messages (filter (λ m, Message.id m ∉ ids)) d
  end.

(** [createOtp]; [id] is the value the table's sequence hands out. *)
Definition createOtp (id : Z) (phone code : string) (expiresAt : Z) (now : Z)
    (d : Db) : Otp.t * Db :=
  let otp := Otp.mk id phone code expiresAt false now in
  (otp, set_otps (λ rows, rows ++ [otp]) d).

(** [userId || null] *)
Definition or_null (userId : option Z) : option Z :=
  match userId with
  | Some userId => if decide (userId = 0) then None else Some userId
  | None => None
  end.

(** [createProtectedNumber]; [id] is the value the table's sequence hands
    out. The insert violates the unique constraint on
    [protected_numbers.phone] when the phone is already there. *)
Definition createProtectedNumber (id : Z) (phone : string) (userId : option Z)
    (now : Z) (d : Db) : (string + ProtectedNumber.t) * Db :=
  if decide (phone ∈ ProtectedNumber.phone <$> protectedNumbers d) then
    (inl "duplicate key value violates unique constraint", d)
  else
    let protectedNumber := ProtectedNumber.mk id phone (or_null userId) now in
    (inr protectedNumber,
     set_protectedNumbers (λ rows, rows ++ [protectedNumber]) d).

Definition deleteProtectedNumber (phone : string) (d : Db) : Db :=
  set_protectedNumbers (filter (λ r, ProtectedNumber.phone r ≠ phone)) d.

Record DashboardStats := mkDashboardStats {
  totalUsers : nat;
  activeUsers : nat;
  totalMessages : nat;
  failedMessages : nat
}.

Definition getDashboardStats (d : Db) : DashboardStats :=
  mkDashboardStats
    (length (users d))
    (length (filter (λ u, User.isActive u = true ∧ User.isAdmin u = false)
                    (users d)))
    (length (messages d))
    (length (filter (λ m, Message.status m ≠ "sent") (messages d))).

(** ** server/routes.ts: the remaining routes *)

Record CreditsBody := mkCreditsBody {
  cb_username : string;
  cb_credits : Z
}.

(** The body of /api/admin/toggle-user, read without a schema; [active]
    is a boolean in this embedding. *)
Record ToggleBody := mkToggleBody {
  tg_username : string;
  tg_active : bool
}.

Record PasswordBody := mkPasswordBody {
  pw_currentPassword : string;
  pw_newPassword : string
}.

Definition updateUserCreditsSchema (b : CreditsBody) : bool :=
  bool_decide (3 ≤ String.length (cb_username b))%nat && (1 <=? cb_credits b).

Definition changePasswordSchema (b : PasswordBody) : bool :=
  bool_decide (6 ≤ String.length (pw_currentPassword b))%nat
  && bool_decide (6 ≤ String.length (pw_newPassword b))%nat.

Definition deleteMessagesSchema (ids : list Z) : bool :=
  bool_decide (1 ≤ length ids)%nat.

Definition protectNumberSchema (phone : string) : bool :=
  length_between 10 15 phone.

Definition unprotectNumberSchema (phone : string) : bool :=
  length_between 10 15 phone.

(** The part of [sendOtpMessage] after the fetch. *)
Definition otpSent (out : FetchOutcome) : bool :=
  match out with
  | FetchResponse _ (Some data) => bool_decide (gw_status data = "success")
  | _ => false
  end.

Definition sendOtpMessage (phone otp : string) : M bool :=
  out ← gatewayFetch (CustomSms phone ("Your verification code is: " +:+ otp));
  mret (otpSent out).

Definition storage_createOtp (id : Z) (phone code : string) (expiresAt : Z)
    : M Otp.t :=
  λ w, let r := createOtp id phone code expiresAt (clock w) (db w) in
       (r.1, set_db (λ _, r.2) w).

Definition storage_createProtectedNumber (id : Z) (phone : string)
    (userId : option Z) : M (string + ProtectedNumber.t) :=
  λ w, let r := createProtectedNumber id phone userId (clock w) (db w) in
       (r.1, set_db (λ _, r.2) w).

Definition message_row_json (m : Message.t) : Json :=
  JObj [("id", JNum (Message.id m));
        ("userId", JNum (Message.userId m));
        ("phone", JStr (Message.phone m));
        ("message", JStr (Message.message m));
        ("status", JStr (Message.status m));
        ("type", JStr (Message.type m));
        ("createdAt", JNum (Message.createdAt m))].

(** GET /api/user; [res.sendStatus(401)] sends the status text. *)
Definition get_user (session : option Z) : M Response :=
  req_user ← deserializeUser session;
  match req_user with
  | None => mret (mkResponse 401 (JStr "Unauthorized"))
  | Some user => mret (mkResponse 200 (user_json user))
  end.

(** GET /api/messages *)
Definition get_messages (session : option Z) : M Response :=
  req_user ← deserializeUser session;
  isAuthenticated req_user (λ user,
    messages2 ← query (getUserMessages (User.id user));
    mret (mkResponse 200 (JArr (message_row_json <$> messages2)))).

(** POST /api/admin/delete-message; [deleteMessageSchema] asks for a
    number and holds of every typed body. *)
Definition post_admin_delete_message (session : option Z) (id : Z)
    : M Response :=
  req_user ← deserializeUser session;
  isAdmin req_user (λ _,
    execute (deleteMessage id);;
    mret (mkResponse 200 (JObj
      [("message", JStr "Message deleted successfully");
       ("id", JNum id)]))).

(** POST /api/admin/delete-messages *)
Definition post_admin_delete_messages (session : option Z) (ids : list Z)
    : M Response :=
  req_user ← deserializeUser session;
  isAdmin req_user (λ _,
  validateRequest deleteMessagesSchema ids (
    execute (deleteMessages ids);;
    mret (mkResponse 200 (JObj
      [("message", JStr (pretty (length ids)
                         +:+ " messages deleted successfully"));
       ("count", JNum (Z.of_nat (length ids)))])))).


(** POST /api/admin/protect-number; [id] is the next value of the
    table's sequence. *)
Definition post_admin_protect_number (id : Z) (session : option Z)
    (phone : string) : M Response :=
  req_user ← deserializeUser session;
  isAdmin req_user (λ _,
  validateRequest protectNumberSchema phone (
    isProtected ← query (isNumberProtected phone);
    if isProtected : bool then
      mret (message_json 400 "This number is already protected")
    else
      created ← storage_createProtectedNumber id phone None;
      match created with
      | inl err => mret (next_error err)
      | inr _ =>
          mret (mkResponse 200 (JObj
            [("message", JStr "Number has been protected from bomber messages");
             ("phone", JStr phone)]))
      end)).

(** POST /api/admin/unprotect-number *)
Definition post_admin_unprotect_number (session : option Z) (phone : string)
    : M Response :=
  req_user ← deserializeUser session;
  isAdmin req_user (λ _,
  validateRequest unprotectNumberSchema phone (
    isProtected ← query (isNumberProtected phone);
    if negb isProtected then
      mret (message_json 400 "This number is not protected")
    else
      execute (deleteProtectedNumber phone);;
      mret (mkResponse 200 (JObj
        [("message", JStr "Protection removed from this number");
         ("phone", JStr phone)])))).

(** POST /api/protect-my-number *)
Definition post_protect_my_number (id : Z) (session : option Z) : M Response :=
  req_user ← deserializeUser session;
  isAuthenticated req_user (λ user,
    isProtected ← query (isNumberProtected (User.phone user));
    if isProtected : bool then
      mret (message_json 400 "Your number is already protected")
    else
      created ← storage_createProtectedNumber id (User.phone user)
                  (Some (User.id user));
      match created with
      | inl err => mret (next_error err)
      | inr _ =>
          mret (message_json 200
                  "Your number has been protected from bomber messages")
      end).

(** POST /api/unprotect-my-number *)
Definition post_unprotect_my_number (session : option Z) : M Response :=
  req_user ← deserializeUser session;
  isAuthenticated req_user (λ user,
    isProtected ← query (isNumberProtected (User.phone user));
    if negb isProtected then
      mret (message_json 400 "Your number is not protected")
    else
      execute (deleteProtectedNumber (User.phone user));;
      mret (message_json 200 "Protection removed from your number")).


(** The routes below look users up by name. The comparison is
    [LOWER(username) = username.toLowerCase()]: the left side is folded by
    the database, the right side by JavaScript. Passwords are compared by
    [comparePasswords], which throws (left) when the stored hash cannot be
    split or has the wrong length. *)
Section builtins.
Variables (sql_lower toLowerCase : string → string).
Variable comparePasswords : string → string → string + bool.

Definition getUserByUsername (username : string) (d : Db) : option User.t :=
  sql_select_first
    (λ u, sql_lower (User.username u) = toLowerCase username) (users d).

(** POST /api/register; [otp] is the code drawn by [generateOTP] and
    [otp_id] the next value of the sequence of [otps]. [setMinutes] moves
    the expiry fifteen minutes ahead of the clock. *)
Definition post_register (otp_id : Z) (otp : string) (body : InsertUser)
    : M Response :=
  validateRequest insertUserSchema body (
    existingUser ← query (getUserByUsername (iu_username body));
    if bool_decide (is_Some existingUser) then
      mret (message_json 400 "Username already exists")
    else
      existingPhone ← query (getUserByPhone (iu_phone body));
      if bool_decide (is_Some existingPhone) then
        mret (message_json 400 "Phone number already registered")
      else
        now ← newDate;
        storage_createOtp otp_id (iu_phone body) otp (now + 15 * 60 * 1000);;
        sent ← sendOtpMessage (iu_phone body) otp;
        if negb sent then
          mret (message_json 500 "Failed to send verification code")
        else
          mret (mkResponse 200 (JObj
            [("message", JStr "Verification code sent");
             ("phone", JStr (iu_phone body));
             ("username", JStr (iu_username body))]))).

(** POST /api/login: the verify callback of the local strategy, then the
    custom callback of the route. passport-local itself turns down empty
    credentials. The second component is the user id stored in the
    session by [serializeUser]. *)
Definition post_login (username password : string)
    : M (Response * option Z) :=
  if bool_decide (username = "" ∨ password = "") then
    mret (message_json 401 "Missing credentials", None)
  else
    user ← query (getUserByUsername username);
    match user with
    | None => mret (message_json 401 "Invalid username or password", None)
    | Some user =>
        if negb (User.isActive user) then
          mret (message_json 401 "Account is disabled", None)
        else
          match comparePasswords password (User.password user) with
          | inl err => mret (next_error err, None)
          | inr false =>
              mret (message_json 401 "Invalid username or password", None)
          | inr true =>
              now ← newDate;
              execute (updateUserLastActivity (User.id user) now);;
              err ← req_login user;
              match err with
              | Some err => mret (next_error err, None)
              | None =>
                  mret (mkResponse 200 (user_json user), Some (User.id user))
              end
          end
    end.

(** POST /api/change-password *)
Definition post_change_password (session : option Z) (body : PasswordBody)
    : M Response :=
  req_user ← deserializeUser session;
  isAuthenticated req_user (λ user,
  validateRequest changePasswordSchema body (
    match comparePasswords (pw_currentPassword body) (User.password user) with
    | inl err => mret (next_error err)
    | inr false => mret (message_json 400 "Current password is incorrect")
    | inr true =>
        hashed ← hash_password (pw_newPassword body);
        execute (updateUserPassword (User.id user) hashed);;
        mret (message_json 200 "Password changed successfully")
    end)).

(** POST /api/admin/add-credits *)
Definition post_admin_add_credits (session : option Z) (body : CreditsBody)
    : M Response :=
  req_user ← deserializeUser session;
  isAdmin req_user (λ _,
  validateRequest updateUserCreditsSchema body (
    user ← query (getUserByUsername (cb_username body));
    match user with
    | None => mret (message_json 404 "User not found")
    | Some user =>
        execute (addUserCredits (User.id user) (cb_credits body));;
        mret (mkResponse 200 (JObj
          [("message", JStr ("Added " +:+ pretty (cb_credits body)
                             +:+ " credits to user " +:+ cb_username body));
           ("username", JStr (cb_username body));
           ("messagesRemaining",
            JNum (User.messagesRemaining user + cb_credits body))]))
    end)).

(** POST /api/admin/remove-credits *)
Definition post_admin_remove_credits (session : option Z) (body : CreditsBody)
    : M Response :=
  req_user ← deserializeUser session;
  isAdmin req_user (λ _,
  validateRequest updateUserCreditsSchema body (
    user ← query (getUserByUsername (cb_username body));
    match user with
    | None => mret (message_json 404 "User not found")
    | Some user =>
        execute (removeUserCredits (User.id user) (cb_credits body));;
        mret (mkResponse 200 (JObj
          [("message", JStr ("Removed " +:+ pretty (cb_credits body)
                             +:+ " credits from user " +:+ cb_username body));
           ("username", JStr (cb_username body));
           ("messagesRemaining",
            JNum (Z.max 0 (User.messagesRemaining user - cb_credits body)))]))
    end)).

(** POST /api/admin/toggle-user *)
Definition post_admin_toggle_user (session : option Z) (body : ToggleBody)
    : M Response :=
  req_user ← deserializeUser session;
  isAdmin req_user (λ _,
    user ← query (getUserByUsername (tg_username body));
    match user with
    | None => mret (message_json 404 "User not found")
    | Some user =>
        execute (toggleUserActive (User.id user) (tg_active body));;
        mret (mkResponse 200 (JObj
          [("message", JStr ((if tg_active body then "Activated user "
                              else "Deactivated user ") +:+ tg_username body));
           ("username", JStr (tg_username body));
           ("isActive", JBool (tg_active body))]))
    end).
End builtins.

(** ** Vocabulary of the statements *)

(** The ledger operations of the storage class, as data. *)
Inductive LedgerOp :=
| Debit (id now : Z)
| RemoveCredits (id credits : Z)
| AddCredits (id credits : Z).

Definition ledger_step (d : Db) (op : LedgerOp) : Db :=
  match op with
  | Debit id now => updateUserMessageCount id now d
  | RemoveCredits id credits => removeUserCredits id credits d
  | AddCredits id credits => addUserCredits id credits d
  end.

Definition balances_nonnegative (d : Db) : Prop :=
  Forall (λ u, 0 ≤ User.messagesRemaining u) (users d).

Definition adds_nonnegative (op : LedgerOp) : Prop :=
  match op with
  | AddCredits _ credits => 0 ≤ credits
  | _ => True
  end.

(** The results of [n] consecutive calls [c], the first of which is the
    [k]-th call of the run. *)
Definition custom_outcomes (w : World) (c : GatewayCall) (k n : nat)
    : list SendResult :=
  (λ i, customResult (fetch w i c)) <$> seq k n.

Definition successes (results : list SendResult) : Z :=
  Z.of_nat (length (filter (λ r, success r = true) results)).

(** The row [createUser] inserts for a registration body. *)
Definition registered_user (w : World) (body : InsertUser) : User.t :=
  User.mk (users_id_seq (db w)) (iu_username body)
    (hashPassword w (iu_password body)) (iu_fullName body) (iu_phone body)
    5 0 (clock w) (default false (iu_isAdmin body)) true (clock w).

(** ** A small deployment used to evaluate the routes

    The seeded administrator, one ordinary user holding ten credits, one
    protected number and two verification codes issued to the same phone. *)

Definition example_admin : User.t :=
  User.mk 1 "vbs" "5f2a.9c" "VBS Admin" "1234567890" 5 0 0 true true 0.

Definition example_user : User.t :=
  User.mk 2 "alice" "77aa.01" "Alice Example" "5550001111" 10 0 0 false true 0.

Definition example_db : Db :=
  mkDb [example_admin; example_user] []
       [Otp.mk 1 "5557770000" "123456" 900500 false 500;
        Otp.mk 2 "5557770000" "654321" 900900 false 900]
       [ProtectedNumber.mk 1 "5559998888" None 0]
       3 1.

(** A gateway that accepts every call, and one that rejects every call. *)
Definition gateway_up : nat → GatewayCall → FetchOutcome :=
  λ _ _, FetchResponse true (Some (mkGatewayJson "success" (Some (Some "42")))).

Definition gateway_down : nat → GatewayCall → FetchOutcome :=
  λ _ _, FetchResponse false (Some (mkGatewayJson "error" None)).

(** A gateway whose second call (index 1) fails and whose others succeed. *)
Definition gateway_flaky : nat → GatewayCall → FetchOutcome :=
  λ k c, if decide (k = 1%nat) then gateway_down k c else gateway_up k c.

Definition example_world (gateway : nat → GatewayCall → FetchOutcome) : World :=
  mkWorld example_db 1000 gateway [] (λ password, password +:+ ".salt") (λ _, None).

(** The same deployment later on: the newer code has been verified and
    the clock is far past the expiry of both codes. *)
Definition example_world_late : World :=
  mkWorld (verifyOtp 2 example_db) 5000000 gateway_up []
          (λ password, password +:+ ".salt") (λ _, None).

(** ** Vocabulary of the further statements *)

(** The user a session resolves to: none without a session, and none when
    the row is gone. *)
Definition session_user (session : option Z) (w : World) : option User.t :=
  session ≫= λ id, getUser id (db w).

(** The primary key of [users]. *)
Definition users_pk (d : Db) : Prop := NoDup (User.id <$> users d).


(** Case folding of the letters A to Z, and a password check that goes
    with the example's [hashPassword] and knows the example user's
    password: used to run the routes that take these as parameters. *)
Definition ascii_lower_char (c : Ascii.ascii) : Ascii.ascii :=
  let n := Ascii.nat_of_ascii c in
  if bool_decide (65 ≤ n ≤ 90)%nat then Ascii.ascii_of_nat (n + 32) else c.

Fixpoint ascii_lower (s : string) : string :=
  match s with
  | EmptyString => EmptyString
  | String c s => String (ascii_lower_char c) (ascii_lower s)
  end.

Definition example_compare (supplied stored : string) : string + bool :=
  inr (bool_decide (stored = supplied +:+ ".salt"
                    ∨ (supplied = "wonderland" ∧ stored = "77aa.01"))).

(** The clock of the next request. *)
Definition at_time (now : Z) (w : World) : World :=
  mkWorld (db w) now (fetch w) (gateway_log w) (hashPassword w) (login_error w).

(** * Properties *)

(** ** Queries and updates *)

Section sql.
Context {A : Type} (P : A → Prop) `{!∀ x, Decision (P x)}.

Lemma sql_select_first_Some rows r :
  sql_select_first P rows = Some r → r ∈ rows ∧ P r.
Proof.
  unfold sql_select_first. intros Hhd.
  apply head_Some_elem_of in Hhd.
  by apply list_elem_of_filter in Hhd as [? ?].
Qed.

Lemma sql_select_first_update (f : A → A) rows :
  (∀ r, P (f r) ↔ P r) →
  sql_select_first P (sql_update P f rows) = f <$> sql_select_first P rows.
Proof.
  intros Hkey. unfold sql_select_first, sql_update.
  induction rows as [|r rows IH]; [done|].
  rewrite fmap_cons. destruct (decide (P r)) as [Hr|Hr].
  - rewrite !filter_cons_True by first [done | by apply Hkey]. done.
  - rewrite !filter_cons_False by done. exact IH.
Qed.
End sql.

Lemma getUser_id id d user : getUser id d = Some user → User.id user = id.
Proof. intros H. by apply sql_select_first_Some in H as [_ ?]. Qed.

(** ** Running handlers: one equation per primitive *)

Section run.
Context {B : Type}.
Implicit Types (w : World) (k : unit → M B).

Lemma run_ret (b : B) w : (mret b : M B) w = (b, w).
Proof. done. Qed.

Lemma run_query {A} (f : Db → A) (k : A → M B) w :
  (query f ≫= k) w = k (f (db w)) w.
Proof. done. Qed.

Lemma run_execute (f : Db → Db) k w :
  (execute f ≫= k) w = k tt (set_db f w).
Proof. done. Qed.

Lemma run_newDate (k : Z → M B) w : (newDate ≫= k) w = k (clock w) w.
Proof. done. Qed.

Lemma run_sendCustomMessage phone message (k : SendResult → M B) w :
  (sendCustomMessage phone message ≫= k) w
  = k (customResult (fetch w (length (gateway_log w)) (CustomSms phone message)))
      (log_call (CustomSms phone message) w).
Proof. done. Qed.

Lemma run_sendBomberMessage phone repeat (k : SendResult → M B) w :
  (sendBomberMessage phone repeat ≫= k) w
  = k (bomberResult (fetch w (length (gateway_log w)) (BomberSms phone repeat)))
      (log_call (BomberSms phone repeat) w).
Proof. done. Qed.

Lemma run_updateUserMessageCount id k w :
  (storage_updateUserMessageCount id ≫= k) w
  = k tt (set_db (updateUserMessageCount id (clock w)) w).
Proof. done. Qed.

Lemma run_createMessage im (k : Message.t → M B) w :
  (storage_createMessage im ≫= k) w
  = k (createMessage im (clock w) (db w)).1
      (set_db (λ _, (createMessage im (clock w) (db w)).2) w).
Proof. done. Qed.

Lemma run_createUser iu (k : string + User.t → M B) w :
  (storage_createUser iu ≫= k) w
  = k (createUser iu (clock w) (db w)).1
      (set_db (λ _, (createUser iu (clock w) (db w)).2) w).
Proof. done. Qed.

Lemma run_hash_password password (k : string → M B) w :
  (hash_password password ≫= k) w = k (hashPassword w password) w.
Proof. done. Qed.

Lemma run_req_login user (k : option string → M B) w :
  (req_login user ≫= k) w = k (login_error w user) w.
Proof. done. Qed.
End run.

Lemma run_bind {A B} (m : M A) (k : A → M B) (w : World) :
  (m ≫= k) w = k (m w).1 (m w).2.
Proof. done. Qed.

Create Rewrite HintDb run.
#[global] Hint Rewrite @run_ret @run_query @run_execute @run_newDate
  @run_sendCustomMessage @run_sendBomberMessage @run_updateUserMessageCount
  @run_createMessage @run_createUser @run_hash_password @run_req_login : run.

Ltac run :=
  unfold isAuthenticated, isAdmin, validateRequest, deserializeUser;
  repeat (autorewrite with run;
          cbn [db clock fetch gateway_log hashPassword login_error
               set_db log_call fst snd]).

(** C8. A self-service bomber request whose repeat exceeds the caller's
    messagesRemaining is answered 400 "You don't have enough credits" and
    leaves the world as it was: no gateway call is logged, the ledger and
    the message history are untouched. *)
Theorem bomber_insufficient_credits (w : World) (id : Z) (user : User.t)
    (body : BomberBody) :
  getUser id (db w) = Some user →
  bomberSchema body = true →
  User.messagesRemaining user < bo_repeat body →
  post_bomber (Some id) body w
  = (message_json 400 "You don't have enough credits", w).
Proof.
  intros Huser Hschema Hcredits. unfold post_bomber. run.
  rewrite Huser, Hschema.
  destruct (Z.ltb_spec (User.messagesRemaining user) (bo_repeat body)); [done|lia].
Qed.

(** ** The credit ledger *)

Lemma getUser_updateUserMessageCount id now d user :
  getUser id d = Some user →
  getUser id (updateUserMessageCount id now d)
  = Some (User.set_ledger (Z.max 0 (User.messagesRemaining user - 1))
                          (User.messagesSent user + 1) now user).
Proof.
  intros Huser. unfold updateUserMessageCount.
  unfold getUser in Huser. rewrite Huser.
  unfold getUser, set_users; cbn [users].
  rewrite sql_select_first_update by done. by rewrite Huser.
Qed.

Lemma getUser_removeUserCredits id credits d user :
  getUser id d = Some user →
  getUser id (removeUserCredits id credits d)
  = Some (User.set_messagesRemaining
            (Z.max 0 (User.messagesRemaining user - credits)) user).
Proof.
  intros Huser. unfold getUser, removeUserCredits, set_users; cbn [users].
  rewrite sql_select_first_update by done.
  unfold getUser in Huser. by rewrite Huser.
Qed.

Lemma getUser_addUserCredits id credits d user :
  getUser id d = Some user →
  getUser id (addUserCredits id credits d)
  = Some (User.set_messagesRemaining (User.messagesRemaining user + credits) user).
Proof.
  intros Huser. unfold getUser, addUserCredits, set_users; cbn [users].
  rewrite sql_select_first_update by done.
  unfold getUser in Huser. by rewrite Huser.
Qed.

Lemma getUser_createMessage id im now d :
  getUser id (createMessage im now d).2 = getUser id d.
Proof. done. Qed.

Lemma messages_updateUserMessageCount id now d :
  messages (updateUserMessageCount id now d) = messages d.
Proof. unfold updateUserMessageCount. by destruct sql_select_first. Qed.

Lemma messages_createMessage im now d :
  messages (createMessage im now d).2 = messages d ++ [(createMessage im now d).1].
Proof. done. Qed.

(** C3. POST /api/send-message by an active user with credit left: when
    the gateway call reports success the answer is 200, the user's row is
    debited (one credit less, one message more) and one row with status
    "sent" is appended to the history; when it reports failure the answer
    is 500 and the database is exactly as before. In both cases one
    gateway call was made. *)
Theorem send_message_debit_iff_gateway_success (w : World) (id : Z)
    (user : User.t) (body : SendMessageBody) :
  getUser id (db w) = Some user →
  sendMessageSchema body = true →
  User.isActive user = true →
  0 < User.messagesRemaining user →
  let call := CustomSms (sm_phone body) (sm_message body) in
  let result := customResult (fetch w (length (gateway_log w)) call) in
  let r := post_send_message (Some id) body w in
  gateway_log r.2 = gateway_log w ++ [call]
  ∧ (success result = true →
       status r.1 = 200
       ∧ getUser id (db r.2)
         = Some (User.set_ledger (User.messagesRemaining user - 1)
                   (User.messagesSent user + 1) (clock w) user)
       ∧ ∃ row, messages (db r.2) = messages (db w) ++ [row]
           ∧ Message.userId row = id
           ∧ Message.phone row = sm_phone body
           ∧ Message.message row = sm_message body
           ∧ Message.status row = "sent"
           ∧ Message.type row = "custom")
  ∧ (success result = false → status r.1 = 500 ∧ db r.2 = db w).
Proof.
  intros Huser Hschema Hactive Hcredit call result r.
  assert (User.id user = id) as Hid by by eapply getUser_id.
  subst r. unfold post_send_message. run.
  rewrite Huser, Hschema, Hactive. cbn [negb].
  destruct (Z.leb_spec (User.messagesRemaining user) 0); [lia|].
  run. fold call result.
  destruct (success result) eqn:Hok; cbn [negb]; run.
  - split; [done|]. split; [|done]. intros _.
    split; [done|]. split.
    + rewrite Hid, getUser_createMessage.
      rewrite getUser_updateUserMessageCount with (user := user) by done.
      by rewrite Z.max_r by lia.
    + rewrite messages_createMessage, messages_updateUserMessageCount.
      eexists. split; [reflexivity|]. by rewrite Hid.
  - split; [done|]. split; [done|]. by intros _.
Qed.

(** What a successful self-service bomber send does to the ledger, for
    every caller: the stored balance drops by [repeat] and then by one more
    (the sent-count bump goes through [updateUserMessageCount]), while the
    answer reports a drop by [repeat] only. *)
Lemma bomber_success_ledger (w : World) (id : Z) (user : User.t)
    (body : BomberBody) :
  getUser id (db w) = Some user →
  bomberSchema body = true →
  bo_repeat body ≤ User.messagesRemaining user →
  User.isActive user = true →
  isNumberProtected (bo_phone body) (db w) = false →
  success (bomberResult (fetch w (length (gateway_log w))
             (BomberSms (bo_phone body) (bo_repeat body)))) = true →
  let r := post_bomber (Some id) body w in
  getUser id (db r.2)
  = Some (User.set_ledger
            (Z.max 0 (User.messagesRemaining user - bo_repeat body - 1))
            (User.messagesSent user + 1) (clock w) user)
  ∧ r.1 = mkResponse 200 (JObj
      [("message", JStr ("Successfully sent " +:+ pretty (bo_repeat body)
                         +:+ " messages"));
       ("messagesRemaining",
        JNum (User.messagesRemaining user - bo_repeat body))]).
Proof.
  intros Huser Hschema Hcredit Hactive Hfree Hok r.
  assert (User.id user = id) as Hid by by eapply getUser_id.
  subst r. unfold post_bomber. run.
  rewrite Huser, Hschema, Hactive. cbn [negb].
  destruct (Z.ltb_spec (User.messagesRemaining user) (bo_repeat body)); [lia|].
  run. rewrite Hfree. run. rewrite Hok. cbn [negb]. run.
  split; [|done].
  rewrite Hid, getUser_createMessage.
  erewrite getUser_updateUserMessageCount
    by by apply getUser_removeUserCredits.
  f_equal. unfold User.set_messagesRemaining, User.set_ledger. cbn.
  f_equal. lia.
Qed.

(** C1. A user holding 10 credits sends a bomber burst of 3 that the
    gateway accepts: the answer is 200 and announces 7 credits remaining,
    messagesSent goes from 0 to 1, but the stored messagesRemaining is 6,
    one less than the decrease by [repeat] that the answer reports. *)
Theorem bomber_debits_one_more_than_repeat :
  let body := mkBomberBody "5552223333" 3 None in
  let r := post_bomber (Some 2) body (example_world gateway_up) in
  User.messagesRemaining <$> getUser 2 example_db = Some 10
  ∧ gateway_log r.2 = [BomberSms "5552223333" 3]
  ∧ r.1 = mkResponse 200 (JObj
      [("message", JStr "Successfully sent 3 messages");
       ("messagesRemaining", JNum 7)])
  ∧ User.messagesSent <$> getUser 2 (db r.2) = Some 1
  ∧ User.messagesRemaining <$> getUser 2 (db r.2) = Some 6.
Proof. vm_compute. repeat split; reflexivity. Qed.

(** What /api/request-credits stores, for every authenticated caller and
    valid body: one new row of type "credit_request" whose status is
    "sent", because [createMessage] overwrites the status it is given. *)
Lemma request_credits_row (w : World) (id : Z) (user : User.t)
    (body : CreditRequestBody) :
  getUser id (db w) = Some user →
  creditRequestSchema body = true →
  let r := post_request_credits (Some id) body w in
  status r.1 = 200
  ∧ ∃ row, messages (db r.2) = messages (db w) ++ [row]
      ∧ Message.userId row = id
      ∧ Message.type row = "credit_request"
      ∧ Message.status row = "sent".
Proof.
  intros Huser Hschema r.
  assert (User.id user = id) as Hid by by eapply getUser_id.
  subst r. unfold post_request_credits. run.
  rewrite Huser, Hschema. run.
  split; [done|]. eexists. split; [reflexivity|]. by rewrite Hid.
Qed.

(** C2. An authenticated user posts a valid credit request: the answer is
    200 and the one Message row created has type "credit_request", but its
    status is "sent", not "pending". *)
Theorem request_credits_row_is_sent_not_pending :
  let body := mkCreditRequestBody "please give me more" 20 in
  let r := post_request_credits (Some 2) body (example_world gateway_up) in
  creditRequestSchema body = true
  ∧ status r.1 = 200
  ∧ (λ m, (Message.userId m, Message.type m, Message.status m))
      <$> messages (db r.2) = [(2, "credit_request", "sent")]
  ∧ "sent" ≠ "pending".
Proof. vm_compute. repeat split; try reflexivity. discriminate. Qed.

Lemma sql_update_Forall {A} (P Q : A → Prop) `{!∀ x, Decision (P x)}
    (f : A → A) rows :
  (∀ r, Q r → Q (f r)) → Forall Q rows → Forall Q (sql_update P f rows).
Proof.
  intros Hf Hrows. unfold sql_update. apply Forall_fmap.
  eapply Forall_impl; [exact Hrows|].
  intros r Hr. cbn. case_decide; auto.
Qed.

(** Debits and removals floor at zero whatever their argument; an addition
    keeps the balance non-negative when the amount added is. *)
Lemma ledger_step_nonnegative d op :
  adds_nonnegative op → balances_nonnegative d →
  balances_nonnegative (ledger_step d op).
Proof.
  unfold balances_nonnegative.
  destruct op as [id now|id credits|id credits]; cbn; intros Hop Hd.
  - unfold updateUserMessageCount. destruct sql_select_first; [|done].
    apply sql_update_Forall; [|done]. intros r _; cbn. lia.
  - apply sql_update_Forall; [|done]. intros r _; cbn. lia.
  - apply sql_update_Forall; [|done]. intros r Hr; cbn. lia.
Qed.

Lemma ledger_nonnegative ops d :
  Forall adds_nonnegative ops → balances_nonnegative d →
  balances_nonnegative (foldl ledger_step d ops).
Proof.
  intros Hops. revert d.
  induction Hops as [|op ops Hop _ IH]; intros d Hd; [done|].
  cbn. apply IH. by apply ledger_step_nonnegative.
Qed.

(** [addUserCredits] itself has no floor: a negative amount larger than the
    balance leaves the balance negative. *)
Lemma addUserCredits_no_floor id credits d user :
  getUser id d = Some user →
  User.messagesRemaining user + credits < 0 →
  ¬ balances_nonnegative (addUserCredits id credits d).
Proof.
  intros Huser Hneg Hall.
  pose proof (getUser_addUserCredits id credits d user Huser) as Hget.
  apply sql_select_first_Some in Hget as [Hin _].
  unfold balances_nonnegative in Hall. rewrite Forall_forall in Hall.
  apply Hall in Hin. cbn in Hin. lia.
Qed.

(** C6. An administrator approves a credit request with [credits = -15]
    for a user holding 10 credits; the route has no schema, the amount
    reaches [addUserCredits] unchanged, the answer is 200 and the stored
    balance is -5. *)
Theorem approve_negative_credits_breaks_floor :
  let body := mkApproveBody 1 2 (-15) in
  let r := post_admin_approve_credit_request (Some 1) body
             (example_world gateway_up) in
  balances_nonnegative example_db
  ∧ status r.1 = 200
  ∧ users (db r.2) = users (foldl ledger_step example_db [AddCredits 2 (-15)])
  ∧ User.messagesRemaining <$> getUser 2 (db r.2) = Some (-5)
  ∧ ¬ balances_nonnegative (db r.2).
Proof.
  cbv zeta. split; [|split; [|split; [|split]]].
  - repeat constructor; vm_compute; discriminate.
  - vm_compute; reflexivity.
  - vm_compute; reflexivity.
  - vm_compute; reflexivity.
  - intros Hall. unfold balances_nonnegative in Hall.
    rewrite Forall_forall in Hall.
    assert (Hin : User.set_messagesRemaining (-5) example_user
                  ∈ users (db (post_admin_approve_credit_request (Some 1)
                      (mkApproveBody 1 2 (-15)) (example_world gateway_up)).2)).
    { vm_compute. apply list_elem_of_further, list_elem_of_here. }
    apply Hall in Hin. cbn in Hin. lia.
Qed.

(** ** Protected numbers *)

(** Whoever asks and whatever the body, a bomber request aimed at a
    protected number changes nothing: neither endpoint logs a gateway call
    or touches the database. *)
Lemma bomber_protected_no_effect (w : World) (session : option Z)
    (body : BomberBody) :
  isNumberProtected (bo_phone body) (db w) = true →
  (post_bomber session body w).2 = w
  ∧ (post_admin_bomber session body w).2 = w.
Proof.
  intros Hprot. unfold post_bomber, post_admin_bomber.
  destruct session as [id|]; run; [|done].
  destruct (getUser id (db w)) as [user|]; [|done].
  destruct (bomberSchema body).
  - split.
    + destruct (_ <? _); [done|]. destruct (negb _); [done|].
      run. by rewrite Hprot.
    + destruct (User.isAdmin user); [|done]. run. by rewrite Hprot.
  - split; [done|]. by destruct (User.isAdmin user).
Qed.

(** C4, as the code has it. For a protected number and a valid body, the
    admin bomber endpoint answers 403 and the self-service endpoint
    answers 403, except that it answers 400 when repeat exceeds the
    caller's messagesRemaining (the credit check comes first); in every
    case the world is unchanged: no gateway call, no credit consumed. *)
Theorem bomber_protected_number_rejected (w : World) (caller : Z)
    (user : User.t) (admin_id : Z) (admin : User.t) (body : BomberBody) :
  isNumberProtected (bo_phone body) (db w) = true →
  bomberSchema body = true →
  getUser caller (db w) = Some user →
  getUser admin_id (db w) = Some admin →
  User.isAdmin admin = true →
  post_admin_bomber (Some admin_id) body w
  = (message_json 403 "This number is protected from bomber messages", w)
  ∧ (post_bomber (Some caller) body w).2 = w
  ∧ status (post_bomber (Some caller) body w).1
    = (if User.messagesRemaining user <? bo_repeat body then 400 else 403).
Proof.
  intros Hprot Hschema Huser Hadmin Hisadmin.
  split; [|split].
  - unfold post_admin_bomber. run.
    rewrite Hadmin, Hisadmin, Hschema. run. by rewrite Hprot.
  - by apply bomber_protected_no_effect.
  - unfold post_bomber. run. rewrite Huser, Hschema.
    destruct (_ <? _); [done|]. destruct (negb _); [done|].
    run. by rewrite Hprot.
Qed.

(** C4 at work: a protected target, a caller with enough credits. *)
Lemma bomber_protected_number_rejected_witness :
  let body := mkBomberBody "5559998888" 3 None in
  let w := example_world gateway_up in
  post_admin_bomber (Some 1) body w
  = (message_json 403 "This number is protected from bomber messages", w)
  ∧ (post_bomber (Some 2) body w).2 = w
  ∧ status (post_bomber (Some 2) body w).1 = 403.
Proof.
  exact (bomber_protected_number_rejected (example_world gateway_up)
           2 example_user 1 example_admin
           (mkBomberBody "5559998888" 3 None)
           eq_refl eq_refl eq_refl eq_refl eq_refl).
Defined.

(** C4 as stated fails: a caller holding 10 credits who asks for 30
    messages to a protected number is answered 400, not 403. *)
Lemma bomber_protected_number_answers_400 :
  ¬ (∀ (w : World) (id : Z) (user : User.t) (body : BomberBody),
       isNumberProtected (bo_phone body) (db w) = true →
       bomberSchema body = true →
       getUser id (db w) = Some user →
       status (post_bomber (Some id) body w).1 = 403).
Proof.
  intros Hclaim.
  specialize (Hclaim (example_world gateway_up) 2 example_user
                (mkBomberBody "5559998888" 30 None)
                eq_refl eq_refl eq_refl).
  vm_compute in Hclaim. discriminate.
Qed.

(** C10. An administrator's custom message to a number that is in the
    protected registry still goes out: exactly one gateway call is made for
    that phone, and the answer is 200 or 500 according to the gateway's
    report alone. The database is not touched. *)
Theorem admin_custom_message_ignores_protection (w : World) (id : Z)
    (admin : User.t) (body : SendMessageBody) :
  getUser id (db w) = Some admin →
  User.isAdmin admin = true →
  customMessageSchema body = true →
  isNumberProtected (sm_phone body) (db w) = true →
  let call := CustomSms (sm_phone body) (sm_message body) in
  let result := customResult (fetch w (length (gateway_log w)) call) in
  let r := post_admin_custom_message (Some id) body w in
  r.2 = log_call call w
  ∧ gateway_log r.2 = gateway_log w ++ [call]
  ∧ status r.1 = (if success result then 200 else 500).
Proof.
  intros Hadmin Hisadmin Hschema _ call result r.
  subst r. unfold post_admin_custom_message. run.
  rewrite Hadmin, Hisadmin, Hschema. run. fold call result.
  by destruct (success result).
Qed.

(** C10 at work: the protected number of the example receives the
    administrator's message. *)
Lemma admin_custom_message_ignores_protection_witness :
  let body := mkSendMessageBody "5559998888" "maintenance tonight" in
  let r := post_admin_custom_message (Some 1) body (example_world gateway_up) in
  isNumberProtected "5559998888" example_db = true
  ∧ gateway_log r.2 = [CustomSms "5559998888" "maintenance tonight"]
  ∧ status r.1 = 200.
Proof.
  split; [reflexivity|].
  exact (proj2 (admin_custom_message_ignores_protection
           (example_world gateway_up) 1 example_admin
           (mkSendMessageBody "5559998888" "maintenance tonight")
           eq_refl eq_refl eq_refl eq_refl)).
Defined.

(** ** The admin bomber loop *)

Lemma iter_log_call_fields c n w :
  db (Nat.iter n (log_call c) w) = db w
  ∧ fetch (Nat.iter n (log_call c) w) = fetch w
  ∧ gateway_log (Nat.iter n (log_call c) w) = gateway_log w ++ replicate n c.
Proof.
  induction n as [|n (IHdb & IHfetch & IHlog)].
  - cbn. by rewrite app_nil_r.
  - rewrite Nat.iter_succ. cbn [log_call db fetch gateway_log]. rewrite IHlog.
    repeat split; [done..|].
    rewrite <- app_assoc. f_equal.
    change [c] with (replicate 1 c). rewrite <- replicate_add.
    f_equal. lia.
Qed.

(** The loop never leaves early: after [n] iterations it has made [n]
    calls, appended their [n] results in order and counted the successful
    ones. *)
Lemma admin_bomber_loop_spec n phone message results count w :
  let c := CustomSms phone message in
  let outs := custom_outcomes w c (length (gateway_log w)) n in
  admin_bomber_loop n phone message results count w
  = (results ++ outs, count + successes outs, Nat.iter n (log_call c) w).
Proof.
  intros c. revert results count w.
  induction n as [|n IH]; intros results count w outs.
  - subst outs. unfold custom_outcomes, successes. cbn.
    rewrite run_ret. by rewrite app_nil_r, Z.add_0_r.
  - cbn [admin_bomber_loop]. rewrite run_sendCustomMessage. fold c.
    rewrite IH. subst outs.
    unfold custom_outcomes. cbn [log_call gateway_log fetch seq fmap list_fmap].
    rewrite length_app, Nat.add_1_r. cbn [length].
    rewrite <- app_assoc. cbn [app].
    rewrite Nat.iter_succ_r.
    f_equal. f_equal.
    unfold successes. rewrite filter_cons.
    destruct (success (customResult (fetch w (length (gateway_log w)) c)));
      case_decide; try done; cbn [length]; lia.
Qed.

(** C5. An admin bomber request with a non-empty message and repeat
    [n ≥ 1] on an unprotected number makes exactly [n] calls, all of them
    [sendCustomMessage phone message], one after the other whatever each
    reports, leaves the database alone and answers 200 with
    "Sent s of n messages successfully", [s] being the number of calls that
    reported success. *)
Theorem admin_bomber_sends_all (w : World) (id : Z) (admin : User.t)
    (body : BomberBody) (message : string) :
  getUser id (db w) = Some admin →
  User.isAdmin admin = true →
  bomberSchema body = true →
  bo_message body = Some message →
  message ≠ "" →
  isNumberProtected (bo_phone body) (db w) = false →
  let n := Z.to_nat (bo_repeat body) in
  let call := CustomSms (bo_phone body) message in
  let outs := custom_outcomes w call (length (gateway_log w)) n in
  let r := post_admin_bomber (Some id) body w in
  Z.of_nat n = bo_repeat body
  ∧ length outs = n
  ∧ gateway_log r.2 = gateway_log w ++ replicate n call
  ∧ db r.2 = db w
  ∧ r.1 = mkResponse 200 (JObj
      [("message", JStr ("Sent " +:+ pretty (successes outs) +:+ " of "
                         +:+ pretty (bo_repeat body)
                         +:+ " messages successfully"));
       ("results", JArr (json_of_result <$> outs))]).
Proof.
  intros Hadmin Hisadmin Hschema Hmsg Hne Hfree n call outs r.
  assert (1 ≤ bo_repeat body) as Hrepeat.
  { unfold bomberSchema in Hschema.
    apply andb_true_iff in Hschema as [Hschema _].
    apply andb_true_iff in Hschema as [_ Hschema]. lia. }
  split; [lia|]. split.
  { subst outs. unfold custom_outcomes. by rewrite length_fmap, length_seq. }
  subst r. unfold post_admin_bomber. run.
  rewrite Hadmin, Hisadmin, Hschema. run. rewrite Hfree, Hmsg.
  unfold truthy. rewrite bool_decide_eq_true_2 by done.
  rewrite run_bind. cbn [default from_option]. unfold Datatypes.id.
  rewrite admin_bomber_loop_spec. fold n call outs.
  cbn [fst snd]. rewrite run_ret. cbn [fst snd].
  destruct (iter_log_call_fields call n w) as (Hdb & _ & Hlog).
  by rewrite Hdb, Hlog, app_nil_l, Z.add_0_l.
Qed.

(** ** The OTP registry *)

Lemma foldl_newer_Some b rows : is_Some (foldl newer (Some b) rows).
Proof.
  revert b. induction rows as [|r rows IH]; intros b; cbn; [by eexists|].
  destruct (_ <? _); apply IH.
Qed.

(** What [foldl newer] selects: a row of the list (or the starting one), at
    least as recent as every row seen. *)
Lemma foldl_newer_latest acc rows o :
  foldl newer acc rows = Some o →
  (acc = Some o ∨ o ∈ rows)
  ∧ (∀ b, acc = Some b → Otp.createdAt b ≤ Otp.createdAt o)
  ∧ (∀ r, r ∈ rows → Otp.createdAt r ≤ Otp.createdAt o).
Proof.
  revert acc. induction rows as [|r rows IH]; intros acc Hfold; cbn in Hfold.
  - subst acc. split; [by left|]. split; [by intros b [= ->]|].
    intros r Hr. by apply elem_of_nil in Hr.
  - apply IH in Hfold as (Hin & Hacc & Hrows).
    destruct acc as [b|]; cbn in *.
    + destruct (Z.ltb_spec (Otp.createdAt b) (Otp.createdAt r)).
      * specialize (Hacc r eq_refl). split; [|split].
        -- destruct Hin as [[= ->]|Hin]; right; [left|by right].
        -- intros b' [= <-]. lia.
        -- intros r' [->|Hr']%elem_of_cons; auto.
      * specialize (Hacc b eq_refl). split; [|split].
        -- destruct Hin as [Hin|Hin]; [by left|right; by right].
        -- by intros b' [= <-].
        -- intros r' [->|Hr']%elem_of_cons; [lia|auto].
    + specialize (Hacc r eq_refl). split; [|split].
      * destruct Hin as [[= ->]|Hin]; right; [left|by right].
      * done.
      * intros r' [->|Hr']%elem_of_cons; auto.
Qed.

(** [getLatestOtp] finds nothing exactly when the phone has no row. *)
Lemma getLatestOtp_None phone d :
  getLatestOtp phone d = None ↔ ∀ o, o ∈ otps d → Otp.phone o ≠ phone.
Proof.
  unfold getLatestOtp. split.
  - intros Hnone o Hin Hphone.
    assert (o ∈ filter (λ r, Otp.phone r = phone) (otps d)) as Hf
      by by apply list_elem_of_filter.
    destruct (filter _ (otps d)) as [|r rows]; [by apply elem_of_nil in Hf|].
    cbn in Hnone. pose proof (foldl_newer_Some r rows) as [? Hsome].
    congruence.
  - intros Hall. destruct (filter _ (otps d)) as [|r rows] eqn:Hf; [done|].
    assert (r ∈ filter (λ r, Otp.phone r = phone) (otps d)) as Hin
      by (rewrite Hf; left).
    apply list_elem_of_filter in Hin as [? ?]. by destruct (Hall r).
Qed.

(** The row it finds belongs to the phone and none of the phone's rows was
    created later. *)
Lemma getLatestOtp_latest phone d o :
  getLatestOtp phone d = Some o →
  o ∈ otps d ∧ Otp.phone o = phone
  ∧ ∀ o', o' ∈ otps d → Otp.phone o' = phone →
          Otp.createdAt o' ≤ Otp.createdAt o.
Proof.
  unfold getLatestOtp. intros (Hin & _ & Hrows)%foldl_newer_latest.
  destruct Hin as [?|Hin]; [done|].
  apply list_elem_of_filter in Hin as [? ?]. repeat split; [done..|].
  intros o' Hin' Hphone'. apply Hrows. by apply list_elem_of_filter.
Qed.

Lemma filter_sql_update {A} (P Q : A → Prop) `{!∀ x, Decision (P x)}
    `{!∀ x, Decision (Q x)} (f : A → A) rows :
  (∀ r, Q (f r) ↔ Q r) →
  filter Q (sql_update P f rows) = sql_update P f (filter Q rows).
Proof.
  intros Hf. unfold sql_update.
  induction rows as [|r rows IH]; [done|]. rewrite fmap_cons.
  destruct (decide (Q r)) as [Hr|Hr].
  - rewrite !filter_cons_True; [by rewrite fmap_cons, IH|done|].
    case_decide; [by apply Hf|done].
  - rewrite !filter_cons_False; [done|done|].
    case_decide; [by rewrite Hf|done].
Qed.

Lemma foldl_newer_fmap (g : Otp.t → Otp.t) acc rows :
  (∀ r, Otp.createdAt (g r) = Otp.createdAt r) →
  foldl newer (g <$> acc) (g <$> rows) = g <$> foldl newer acc rows.
Proof.
  intros Hg. revert acc. induction rows as [|r rows IH]; intros acc; [done|].
  cbn. rewrite <- IH. f_equal.
  destruct acc as [b|]; cbn; [|done]. rewrite !Hg. by destruct (_ <? _).
Qed.

(** Marking a row verified does not change which row is the latest. *)
Lemma getLatestOtp_verifyOtp phone d o :
  getLatestOtp phone d = Some o →
  getLatestOtp phone (verifyOtp (Otp.id o) d) = Some (Otp.set_verified true o).
Proof.
  intros Hlatest. unfold getLatestOtp, verifyOtp, set_otps in *. cbn [otps].
  rewrite filter_sql_update by done. unfold sql_update.
  change None with ((λ r, if decide (Otp.id r = Otp.id o)
                          then Otp.set_verified true r else r) <$> @None Otp.t).
  rewrite foldl_newer_fmap by (intros r; by case_decide).
  rewrite Hlatest. cbn. by rewrite decide_True.
Qed.

(** C7. POST /api/verify-otp with a valid body is answered 400, and
    changes nothing, when the phone has no OTP row, or when its most
    recently created row is already verified, or has expired (the clock is
    past expiresAt, whether or not the code is right), or holds another
    code. In the remaining case, and only then, it is answered 200 and that
    row is marked verified. *)
Theorem verify_otp_outcome (w : World) (body : OtpBody) :
  validateOtpSchema body = true →
  let latest := getLatestOtp (otp_phone body) (db w) in
  let r := post_verify_otp body w in
  ((∀ o, o ∈ otps (db w) → Otp.phone o ≠ otp_phone body) →
     status r.1 = 400 ∧ r.2 = w)
  ∧ (∀ o, latest = Some o →
       (Otp.verified o = true ∨ Otp.expiresAt o < clock w
        ∨ Otp.code o ≠ otp_code body →
          status r.1 = 400 ∧ r.2 = w)
       ∧ (Otp.verified o = false → clock w ≤ Otp.expiresAt o →
          Otp.code o = otp_code body →
          status r.1 = 200
          ∧ r.2 = set_db (verifyOtp (Otp.id o)) w
          ∧ getLatestOtp (otp_phone body) (db r.2)
            = Some (Otp.set_verified true o))).
Proof.
  intros Hschema latest r. subst r. unfold post_verify_otp. run.
  rewrite Hschema. run. fold latest. split.
  - intros Hnone%getLatestOtp_None. subst latest. by rewrite Hnone.
  - intros o Hlatest. rewrite Hlatest. split.
    + intros Hfail. destruct (Otp.verified o); [done|]. run.
      destruct (Z.ltb_spec (Otp.expiresAt o) (clock w)); [done|].
      case_decide; [done|]. destruct Hfail as [?|[?|?]]; [done|lia|done].
    + intros -> Hfresh Hcode. run.
      destruct (Z.ltb_spec (Otp.expiresAt o) (clock w)); [lia|].
      rewrite decide_False by (intros ?; done). run.
      repeat split. by apply getLatestOtp_verifyOtp.
Qed.

(** C9. POST /api/complete-registration is answered 400 "Phone not
    verified", with nothing changed, exactly when the phone has no OTP row
    or its most recently created row is unverified. When that row is
    verified the handler goes on to [createUser], and with a free username
    and a working session login it answers 201 and stores the new user;
    neither the clock nor the row's expiresAt takes part in the decision. *)
Theorem complete_registration_checks_verified_only (w : World)
    (body : InsertUser) :
  let latest := getLatestOtp (iu_phone body) (db w) in
  let r := post_complete_registration body w in
  (r.1 = message_json 400 "Phone not verified"
   ↔ (∀ o, o ∈ otps (db w) → Otp.phone o ≠ iu_phone body)
     ∨ ∃ o, latest = Some o ∧ Otp.verified o = false)
  ∧ (r.1 = message_json 400 "Phone not verified" → r.2 = w)
  ∧ (∀ o, latest = Some o → Otp.verified o = true →
       (Otp.expiresAt o < clock w ∨ clock w ≤ Otp.expiresAt o) →
       db r.2
       = (createUser
            (mkInsertUser (iu_username body)
               (hashPassword w (iu_password body)) (iu_fullName body)
               (iu_phone body) (iu_isAdmin body))
            (clock w) (db w)).2
       ∧ (iu_username body ∉ User.username <$> users (db w) →
          login_error w (registered_user w body) = None →
          r.1 = mkResponse 201 (user_json (registered_user w body))
          ∧ users (db r.2) = users (db w) ++ [registered_user w body])).
Proof.
  intros latest r.
  assert (Hrun : r =
    match latest with
    | Some o =>
        if Otp.verified o then
          let created := createUser
            (mkInsertUser (iu_username body)
               (hashPassword w (iu_password body)) (iu_fullName body)
               (iu_phone body) (iu_isAdmin body)) (clock w) (db w) in
          match created.1 with
          | inl err => (next_error err, set_db (λ _, created.2) w)
          | inr user =>
              match login_error w user with
              | Some err => (next_error err, set_db (λ _, created.2) w)
              | None => (mkResponse 201 (user_json user),
                         set_db (λ _, created.2) w)
              end
          end
        else (message_json 400 "Phone not verified", w)
    | None => (message_json 400 "Phone not verified", w)
    end).
  { subst r. unfold post_complete_registration, insertUserSchema. run.
    fold latest.
    destruct latest as [o|]; cbn [from_option]; [|done].
    destruct (Otp.verified o); cbn [negb]; [|done]. run.
    destruct (createUser _ _ _).1; run; [done|].
    by destruct (login_error w _). }
  assert (Hnot400 : Otp.verified <$> latest = Some true →
                    r.1 ≠ message_json 400 "Phone not verified").
  { rewrite Hrun. destruct latest as [o|]; [|done]. intros [= ->]. cbn zeta.
    destruct (createUser _ _ _).1; [done|]. by destruct (login_error w _). }
  split; [split|split].
  - intros H400. destruct latest as [o|] eqn:Hlatest.
    + right. exists o. split; [done|].
      destruct (Otp.verified o) eqn:Hv; [|done].
      exfalso. apply Hnot400; [cbn; by rewrite Hv|done].
    + left. by apply getLatestOtp_None.
  - rewrite Hrun. intros [Hnone%getLatestOtp_None|(o & Hlatest & Hv)].
    + subst latest. by rewrite Hnone.
    + by rewrite Hlatest, Hv.
  - intros H400. destruct latest as [o|] eqn:Hlatest; [|by rewrite Hrun].
    destruct (Otp.verified o) eqn:Hv; [|by rewrite Hrun].
    exfalso. apply Hnot400; [cbn; by rewrite Hv|done].
  - intros o -> Hv _. rewrite Hrun, Hv. cbn zeta. split.
    + destruct (createUser _ _ _).1; [done|]. by destruct (login_error w _).
    + intros Hfree Hlogin. unfold createUser.
      rewrite decide_False by done.
      cbn [fst snd iu_username iu_password iu_fullName iu_phone iu_isAdmin
           users].
      fold (registered_user w body). by rewrite Hlogin.
Qed.

(** ** The theorems at work on the example deployment *)

(** C8 at work: ten credits, thirty messages asked for. *)
Lemma bomber_insufficient_credits_witness :
  let body := mkBomberBody "5552223333" 30 None in
  let w := example_world gateway_up in
  User.messagesRemaining example_user < bo_repeat body
  ∧ post_bomber (Some 2) body w
    = (message_json 400 "You don't have enough credits", w).
Proof.
  split; [reflexivity|].
  exact (bomber_insufficient_credits (example_world gateway_up) 2
           example_user (mkBomberBody "5552223333" 30 None)
           eq_refl eq_refl eq_refl).
Defined.

(** C3 at work: the same request against a gateway that accepts and one
    that rejects. *)
Lemma send_message_debit_iff_gateway_success_witness :
  let body := mkSendMessageBody "5552223333" "see you at eight" in
  let r := post_send_message (Some 2) body (example_world gateway_up) in
  let r' := post_send_message (Some 2) body (example_world gateway_down) in
  (status r.1 = 200
   ∧ getUser 2 (db r.2) = Some (User.set_ledger 9 1 1000 example_user)
   ∧ length (messages (db r.2)) = 1%nat)
  ∧ (status r'.1 = 500 ∧ db r'.2 = example_db).
Proof.
  split.
  - pose proof (send_message_debit_iff_gateway_success
      (example_world gateway_up) 2 example_user
      (mkSendMessageBody "5552223333" "see you at eight")
      eq_refl eq_refl eq_refl eq_refl) as (_ & Hok & _).
    destruct (Hok eq_refl) as (Hstatus & Hledger & row & Hrows & _).
    split; [exact Hstatus|]. split; [exact Hledger|].
    rewrite Hrows. reflexivity.
  - pose proof (send_message_debit_iff_gateway_success
      (example_world gateway_down) 2 example_user
      (mkSendMessageBody "5552223333" "see you at eight")
      eq_refl eq_refl eq_refl eq_refl) as (_ & _ & Hfail).
    exact (Hfail eq_refl).
Defined.

(** C5 at work: repeat 3, the second of the three calls fails. *)
Lemma admin_bomber_sends_all_witness :
  let body := mkBomberBody "5552223333" 3 (Some "wake up") in
  let r := post_admin_bomber (Some 1) body (example_world gateway_flaky) in
  gateway_log r.2 = replicate 3 (CustomSms "5552223333" "wake up")
  ∧ ∃ results,
      r.1 = mkResponse 200 (JObj
        [("message", JStr "Sent 2 of 3 messages successfully");
         ("results", JArr results)]).
Proof.
  assert ("wake up" ≠ "") as Hne by discriminate.
  pose proof (admin_bomber_sends_all (example_world gateway_flaky) 1
    example_admin (mkBomberBody "5552223333" 3 (Some "wake up")) "wake up"
    eq_refl eq_refl eq_refl eq_refl Hne eq_refl) as (_ & _ & Hlog & _ & Hres).
  split; [exact Hlog|]. eexists. exact Hres.
Defined.

(** C7 at work: the newer of two codes is submitted in time. *)
Lemma verify_otp_outcome_witness :
  let body := mkOtpBody "5557770000" "654321" in
  let r := post_verify_otp body (example_world gateway_up) in
  getLatestOtp "5557770000" example_db
  = Some (Otp.mk 2 "5557770000" "654321" 900900 false 900)
  ∧ status r.1 = 200
  ∧ getLatestOtp "5557770000" (db r.2)
    = Some (Otp.mk 2 "5557770000" "654321" 900900 true 900).
Proof.
  split; [reflexivity|].
  pose proof (verify_otp_outcome (example_world gateway_up)
    (mkOtpBody "5557770000" "654321") eq_refl) as [_ Hlatest].
  destruct (Hlatest (Otp.mk 2 "5557770000" "654321" 900900 false 900) eq_refl)
    as [_ Hok].
  assert (1000 ≤ 900900) as Hfresh by lia.
  destruct (Hok eq_refl Hfresh eq_refl) as (Hstatus & _ & Hmarked).
  exact (conj Hstatus Hmarked).
Defined.

(** C9 at work: the code was verified, then left to expire, and the
    registration still completes. *)
Lemma complete_registration_checks_verified_only_witness :
  let body := mkInsertUser "bob" "hunter22" "Bob Example" "5557770000" None in
  let r := post_complete_registration body example_world_late in
  getLatestOtp "5557770000" (db example_world_late)
  = Some (Otp.mk 2 "5557770000" "654321" 900900 true 900)
  ∧ 900900 < clock example_world_late
  ∧ r.1 = mkResponse 201 (user_json (registered_user example_world_late body))
  ∧ users (db r.2)
    = users example_db ++ [registered_user example_world_late body].
Proof.
  split; [reflexivity|]. split; [reflexivity|].
  pose proof (complete_registration_checks_verified_only example_world_late
    (mkInsertUser "bob" "hunter22" "Bob Example" "5557770000" None))
    as (_ & _ & Hverified).
  assert (900900 < 5000000) as Hlate by lia.
  destruct (Hverified (Otp.mk 2 "5557770000" "654321" 900900 true 900)
              eq_refl eq_refl (or_introl Hlate)) as [_ Hcreated].
  apply Hcreated; [|reflexivity].
  vm_compute. intros Hin.
  repeat (apply elem_of_cons in Hin as [Hin|Hin]; [discriminate|]).
  by apply elem_of_nil in Hin.
Defined.

(** An empty [message] is falsy: the admin bomber then takes the
    single-call path through the bomber endpoint, as when no message is
    given. *)
Example admin_bomber_empty_message :
  let body := mkBomberBody "5552223333" 3 (Some "") in
  let r := post_admin_bomber (Some 1) body (example_world gateway_up) in
  gateway_log r.2 = [BomberSms "5552223333" 3]
  ∧ r.1 = message_json 200 "Requested 3 messages to be sent".
Proof. vm_compute. split; reflexivity. Qed.

(** * Further properties of the storage class and the routes *)

Section more_run.
Context {B : Type}.
Implicit Types (w : World).

Lemma run_sendOtpMessage phone otp (k : bool → M B) w :
  (sendOtpMessage phone otp ≫= k) w
  = k (otpSent (fetch w (length (gateway_log w))
         (CustomSms phone ("Your verification code is: " +:+ otp))))
      (log_call (CustomSms phone ("Your verification code is: " +:+ otp)) w).
Proof. done. Qed.

Lemma run_createOtp id phone code expiresAt (k : Otp.t → M B) w :
  (storage_createOtp id phone code expiresAt ≫= k) w
  = k (createOtp id phone code expiresAt (clock w) (db w)).1
      (set_db (λ _, (createOtp id phone code expiresAt (clock w) (db w)).2) w).
Proof. done. Qed.

Lemma run_createProtectedNumber id phone userId
    (k : string + ProtectedNumber.t → M B) w :
  (storage_createProtectedNumber id phone userId ≫= k) w
  = k (createProtectedNumber id phone userId (clock w) (db w)).1
      (set_db (λ _, (createProtectedNumber id phone userId (clock w) (db w)).2) w).
Proof. done. Qed.
End more_run.

#[global] Hint Rewrite @run_sendOtpMessage @run_createOtp
  @run_createProtectedNumber : run.

Lemma run_deserializeUser {B} session (k : option User.t → M B) w :
  (deserializeUser session ≫= k) w = k (session_user session w) w.
Proof. by destruct session. Qed.

Lemma set_db_id w : set_db (λ d, d) w = w.
Proof. by destruct w. Qed.

(** ** Authentication, authorisation and validation come first *)

Section guards.
Context (sql_lower toLowerCase : string → string).
Context (comparePasswords : string → string → string + bool).





(** A body that fails its schema is answered 400 "Validation error" and
    the handler does not run: no gateway call, no write. This holds for
    the public OTP route, for an authenticated caller on the user routes
    and for an administrator on the admin routes. *)
Theorem invalid_body_rejected (w : World) (session : option Z) (user : User.t) :
  session_user session w = Some user →
  let rejected (route : M Response) :=
    route w = (message_json 400 "Validation error", w) in
  (∀ body, validateOtpSchema body = false → rejected (post_verify_otp body))
  ∧ (∀ body, sendMessageSchema body = false →
       rejected (post_send_message session body))
  ∧ (∀ body, bomberSchema body = false → rejected (post_bomber session body))
  ∧ (∀ body, creditRequestSchema body = false →
       rejected (post_request_credits session body))
  ∧ (∀ body, changePasswordSchema body = false →
       rejected (post_change_password comparePasswords session body))
  ∧ (User.isAdmin user = true →
       (∀ body, customMessageSchema body = false →
          rejected (post_admin_custom_message session body))
       ∧ (∀ body, bomberSchema body = false →
            rejected (post_admin_bomber session body))
       ∧ (∀ body, updateUserCreditsSchema body = false →
            rejected (post_admin_add_credits sql_lower toLowerCase session body))
       ∧ (∀ body, updateUserCreditsSchema body = false →
            rejected (post_admin_remove_credits sql_lower toLowerCase session body))
       ∧ (∀ ids, deleteMessagesSchema ids = false →
            rejected (post_admin_delete_messages session ids))
       ∧ (∀ id phone, protectNumberSchema phone = false →
            rejected (post_admin_protect_number id session phone))
       ∧ (∀ phone, unprotectNumberSchema phone = false →
            rejected (post_admin_unprotect_number session phone))).
Proof.
  intros Huser rejected. subst rejected. cbv beta.
  assert (Hin : ∀ k : option User.t → M Response,
            (deserializeUser session ≫= k) w = k (Some user) w).
  { intros k. by rewrite run_deserializeUser, Huser. }
  split; [|split; [|split; [|split; [|split]]]]; [intros body Hbad..|].
  - unfold post_verify_otp, validateRequest. by rewrite Hbad.
  - unfold post_send_message, validateRequest. by rewrite Hin; cbn; rewrite Hbad.
  - unfold post_bomber, validateRequest. by rewrite Hin; cbn; rewrite Hbad.
  - unfold post_request_credits, validateRequest.
    by rewrite Hin; cbn; rewrite Hbad.
  - unfold post_change_password, validateRequest.
    by rewrite Hin; cbn; rewrite Hbad.
  - intros Hadmin.
    repeat split; intros;
      unfold post_admin_custom_message, post_admin_bomber,
        post_admin_add_credits, post_admin_remove_credits,
        post_admin_delete_messages, post_admin_protect_number,
        post_admin_unprotect_number, validateRequest;
      rewrite Hin; cbn; rewrite Hadmin;
      match goal with H : _ = false |- _ => by rewrite H end.
Qed.
End guards.

(** ** Rows found by key *)

Lemma sql_select_first_by_key {A K} `{EqDecision K} (key : A → K) rows r :
  NoDup (key <$> rows) → r ∈ rows →
  sql_select_first (λ x, key x = key r) rows = Some r.
Proof.
  unfold sql_select_first.
  induction rows as [|x rows IH]; intros Hnodup Hin.
  - by apply elem_of_nil in Hin.
  - rewrite fmap_cons in Hnodup. apply NoDup_cons in Hnodup as [Hx Hnodup].
    apply elem_of_cons in Hin as [->|Hin].
    + by rewrite filter_cons_True.
    + rewrite filter_cons_False; [by apply IH|].
      intros Heq. apply Hx. rewrite Heq. by apply list_elem_of_fmap_2.
Qed.

Lemma getUser_of_row d user :
  users_pk d → user ∈ users d → getUser (User.id user) d = Some user.
Proof. intros. by apply (sql_select_first_by_key User.id). Qed.


Section by_name.
Context (sql_lower toLowerCase : string → string).
Context (comparePasswords : string → string → string + bool).

#[local] Abbreviation getUserByUsername := (getUserByUsername sql_lower toLowerCase).
#[local] Abbreviation post_admin_add_credits := (post_admin_add_credits sql_lower toLowerCase).
#[local] Abbreviation post_admin_remove_credits :=
  (post_admin_remove_credits sql_lower toLowerCase).
#[local] Abbreviation post_admin_toggle_user := (post_admin_toggle_user sql_lower toLowerCase).

Lemma getUserByUsername_row username d user :
  getUserByUsername username d = Some user →
  user ∈ users d ∧ sql_lower (User.username user) = toLowerCase username.
Proof. intros Hfound. by apply sql_select_first_Some in Hfound. Qed.




(** The three admin routes that take a username answer 404 "User not
    found" when no row matches it, and change nothing. *)
Theorem admin_unknown_username (w : World) (session : option Z)
    (admin : User.t) (username : string) :
  session_user session w = Some admin →
  User.isAdmin admin = true →
  getUserByUsername username (db w) = None →
  let not_found (route : M Response) :=
    route w = (message_json 404 "User not found", w) in
  (∀ credits, updateUserCreditsSchema (mkCreditsBody username credits) = true →
     not_found (post_admin_add_credits session (mkCreditsBody username credits))
     ∧ not_found (post_admin_remove_credits session
                    (mkCreditsBody username credits)))
  ∧ (∀ active,
       not_found (post_admin_toggle_user session (mkToggleBody username active))).
Proof.
  intros Hsession Hadmin Hnone not_found. subst not_found. cbv beta.
  split.
  - intros credits Hschema.
    unfold post_admin_add_credits, post_admin_remove_credits.
    rewrite !run_deserializeUser, Hsession. run.
    rewrite Hadmin, Hschema. run. cbn [cb_username]. by rewrite Hnone.
  - intros active. unfold post_admin_toggle_user.
    rewrite run_deserializeUser, Hsession. run. rewrite Hadmin. run.
    cbn [tg_username]. by rewrite Hnone.
Qed.

Lemma getUser_toggleUserActive id active d user :
  getUser id d = Some user →
  getUser id (toggleUserActive id active d) = Some (set_isActive active user).
Proof.
  intros Huser. unfold getUser, toggleUserActive, set_users; cbn [users].
  rewrite sql_select_first_update by done.
  unfold getUser in Huser. by rewrite Huser.
Qed.

(** Once an administrator has deactivated a user through
    /api/admin/toggle-user, that user's open session can no longer send:
    /api/send-message answers 403 "Your account is disabled" and
    /api/bomber answers 400 or 403, both without a gateway call or any
    write, whatever the user's balance. *)
Theorem deactivated_user_cannot_send (w : World) (session : option Z)
    (admin : User.t) (username : string) (user : User.t) :
  users_pk (db w) →
  session_user session w = Some admin →
  User.isAdmin admin = true →
  getUserByUsername username (db w) = Some user →
  let w1 := (post_admin_toggle_user session (mkToggleBody username false) w).2 in
  getUser (User.id user) (db w1) = Some (set_isActive false user)
  ∧ (∀ body, sendMessageSchema body = true →
       post_send_message (Some (User.id user)) body w1
       = (message_json 403 "Your account is disabled", w1))
  ∧ (∀ body, bomberSchema body = true →
       (post_bomber (Some (User.id user)) body w1).2 = w1
       ∧ (status (post_bomber (Some (User.id user)) body w1).1 = 400
          ∨ status (post_bomber (Some (User.id user)) body w1).1 = 403)).
Proof.
  intros Hpk Hsession Hadmin Hfound w1.
  apply getUserByUsername_row in Hfound as Hrow. destruct Hrow as [Hin _].
  assert (Hoff : getUser (User.id user) (db w1) = Some (set_isActive false user)).
  { subst w1. unfold post_admin_toggle_user.
    rewrite run_deserializeUser, Hsession. run. rewrite Hadmin. run.
    cbn [tg_username tg_active]. rewrite Hfound. run.
    by apply getUser_toggleUserActive, getUser_of_row. }
  split; [done|]. split.
  - intros body Hschema. unfold post_send_message.
    rewrite run_deserializeUser. cbn [session_user mbind option_bind].
    rewrite Hoff. run. by rewrite Hschema.
  - intros body Hschema. unfold post_bomber.
    rewrite run_deserializeUser. cbn [session_user mbind option_bind].
    rewrite Hoff. run. rewrite Hschema.
    cbn [set_isActive User.messagesRemaining User.isActive negb].
    destruct (_ <? _); run; auto.
Qed.
End by_name.

(** A self-service bomber request that passes every check but is turned
    down by the gateway is answered 500; one gateway call was made and the
    database, ledger and history included, is as before. *)
Theorem bomber_gateway_failure (w : World) (id : Z) (user : User.t)
    (body : BomberBody) :
  getUser id (db w) = Some user →
  bomberSchema body = true →
  bo_repeat body ≤ User.messagesRemaining user →
  User.isActive user = true →
  isNumberProtected (bo_phone body) (db w) = false →
  success (bomberResult (fetch w (length (gateway_log w))
             (BomberSms (bo_phone body) (bo_repeat body)))) = false →
  let r := post_bomber (Some id) body w in
  status r.1 = 500
  ∧ db r.2 = db w
  ∧ gateway_log r.2
    = gateway_log w ++ [BomberSms (bo_phone body) (bo_repeat body)].
Proof.
  intros Huser Hschema Hcredit Hactive Hfree Hfail r.
  subst r. unfold post_bomber. run.
  rewrite Huser, Hschema, Hactive. cbn [negb].
  destruct (Z.ltb_spec (User.messagesRemaining user) (bo_repeat body)); [lia|].
  run. rewrite Hfree. run. by rewrite Hfail.
Qed.

(** ** Logging in and changing the password *)



Section sessions.
Context (sql_lower toLowerCase : string → string).
Context (comparePasswords : string → string → string + bool).

#[local] Abbreviation getUserByUsername :=
  (getUserByUsername sql_lower toLowerCase).
#[local] Abbreviation post_login :=
  (post_login sql_lower toLowerCase comparePasswords).
#[local] Abbreviation post_change_password :=
  (post_change_password comparePasswords).

(** A login that is turned down leaves no trace: no session, no write.
    An unknown name and a wrong password get the very same answer, while
    a deactivated account is told so whatever password comes with the
    request, the right one included. *)
Theorem login_refused (w : World) (username password : string) :
  username ≠ "" → password ≠ "" →
  let invalid := (message_json 401 "Invalid username or password", None) in
  (getUserByUsername username (db w) = None →
     post_login username password w = (invalid, w))
  ∧ (∀ user, getUserByUsername username (db w) = Some user →
       (User.isActive user = false →
          post_login username password w
          = (message_json 401 "Account is disabled", None, w))
       ∧ (User.isActive user = true →
          comparePasswords password (User.password user) = inr false →
          post_login username password w = (invalid, w))).
Proof.
  intros Hname Hpass invalid. subst invalid. unfold post_login.
  rewrite bool_decide_eq_false_2 by (by intros [?|?]).
  split.
  - intros Hnone. run. by rewrite Hnone.
  - intros user Hfound. run. rewrite Hfound. split.
    + by intros ->.
    + intros -> Hwrong. cbn [negb]. by rewrite Hwrong.
Qed.

Lemma getUser_updateUserLastActivity id now d user :
  getUser id d = Some user →
  getUser id (updateUserLastActivity id now d)
  = Some (set_lastActivity now user).
Proof.
  intros Huser. unfold getUser, updateUserLastActivity, set_users; cbn [users].
  rewrite sql_select_first_update by done.
  unfold getUser in Huser. by rewrite Huser.
Qed.

(** A successful login answers 200 with the user's public fields, opens
    a session on the user's id and writes nothing but lastActivity; GET
    /api/user on that session then returns the same fields. *)
Theorem login_then_get_user (w : World) (username password : string)
    (user : User.t) :
  users_pk (db w) →
  username ≠ "" → password ≠ "" →
  getUserByUsername username (db w) = Some user →
  User.isActive user = true →
  comparePasswords password (User.password user) = inr true →
  login_error w user = None →
  let r := post_login username password w in
  r.1 = (mkResponse 200 (user_json user), Some (User.id user))
  ∧ r.2 = set_db (updateUserLastActivity (User.id user) (clock w)) w
  ∧ getUser (User.id user) (db r.2) = Some (set_lastActivity (clock w) user)
  ∧ get_user r.1.2 r.2 = (mkResponse 200 (user_json user), r.2).
Proof.
  intros Hpk Hname Hpass Hfound Hactive Hright Hlogin r.
  apply getUserByUsername_row in Hfound as Hrow. destruct Hrow as [Hin _].
  assert (Hrun : r = (mkResponse 200 (user_json user), Some (User.id user),
                      set_db (updateUserLastActivity (User.id user) (clock w)) w)).
  { subst r. unfold post_login.
    rewrite bool_decide_eq_false_2 by (by intros [?|?]).
    run. rewrite Hfound, Hactive. cbn [negb]. rewrite Hright. run.
    by rewrite Hlogin. }
  assert (Hrow : getUser (User.id user) (db r.2)
                 = Some (set_lastActivity (clock w) user)).
  { rewrite Hrun. cbn [snd set_db db].
    by apply getUser_updateUserLastActivity, getUser_of_row. }
  split; [by rewrite Hrun|]. split; [by rewrite Hrun|]. split; [done|].
  unfold get_user. rewrite run_deserializeUser.
  replace (session_user r.1.2 r.2) with (Some (set_lastActivity (clock w) user)).
  - done.
  - rewrite <- Hrow. by rewrite Hrun.
Qed.


End sessions.

(** ** Registration *)

Lemma sql_select_first_None {A} (P : A → Prop) `{!∀ x, Decision (P x)} rows :
  sql_select_first P rows = None ↔ ∀ r, r ∈ rows → ¬ P r.
Proof.
  unfold sql_select_first. induction rows as [|x rows IH].
  - split; [|done]. intros _ r Hr. by apply elem_of_nil in Hr.
  - destruct (decide (P x)) as [Hx|Hx].
    + rewrite filter_cons_True by done. split; [done|].
      intros Hall. destruct (Hall x); [left|done].
    + rewrite filter_cons_False by done. rewrite IH. split.
      * intros Hall r [->|Hr]%elem_of_cons; auto.
      * intros Hall r Hr. apply Hall. by right.
Qed.

(** A row just issued is the latest of its phone when the phone's other
    rows were created earlier. *)
Lemma getLatestOtp_createOtp id phone code expiresAt now d :
  (∀ o, o ∈ otps d → Otp.phone o = phone → Otp.createdAt o < now) →
  getLatestOtp phone (createOtp id phone code expiresAt now d).2
  = Some (Otp.mk id phone code expiresAt false now).
Proof.
  intros Holder. unfold getLatestOtp, createOtp, set_otps. cbn [snd otps].
  rewrite filter_app, foldl_app.
  rewrite filter_cons_True by done. rewrite filter_nil. cbn [foldl].
  destruct (foldl newer None _) as [b|] eqn:Hfold; [|done].
  apply foldl_newer_latest in Hfold as ([?|Hin] & _); [done|].
  apply list_elem_of_filter in Hin as [Hphone Hin].
  pose proof (Holder b Hin Hphone). cbn.
  destruct (Z.ltb_spec (Otp.createdAt b) now); [done|lia].
Qed.

Lemma getUserByUsername_None sql_lower toLowerCase username d :
  getUserByUsername sql_lower toLowerCase username d = None
  ↔ ∀ u, u ∈ users d → sql_lower (User.username u) ≠ toLowerCase username.
Proof. apply sql_select_first_None. Qed.

Lemma getUserByPhone_None phone d :
  getUserByPhone phone d = None ↔ ∀ u, u ∈ users d → User.phone u ≠ phone.
Proof. apply sql_select_first_None. Qed.

Lemma createUser_fresh insertUser now d :
  iu_username insertUser ∉ User.username <$> users d →
  let user := User.mk (users_id_seq d) (iu_username insertUser)
                (iu_password insertUser) (iu_fullName insertUser)
                (iu_phone insertUser) 5 0 now
                (default false (iu_isAdmin insertUser)) true now in
  (createUser insertUser now d).1 = inr user
  ∧ users (createUser insertUser now d).2 = users d ++ [user].
Proof. intros Hfree user. unfold createUser. by rewrite decide_False. Qed.

Section registration.
Context (sql_lower toLowerCase : string → string).

#[local] Abbreviation getUserByUsername :=
  (getUserByUsername sql_lower toLowerCase).
#[local] Abbreviation post_register := (post_register sql_lower toLowerCase).

(** POST /api/register refuses a name that matches an existing user's
    name once both are case-folded, and a phone that an existing user
    holds: 400, no OTP row is written and no message is sent. *)
Theorem register_refuses_duplicates (w : World) (otp_id : Z) (otp : string)
    (body : InsertUser) (user : User.t) :
  user ∈ users (db w) →
  (sql_lower (User.username user) = toLowerCase (iu_username body) →
     post_register otp_id otp body w
     = (message_json 400 "Username already exists", w))
  ∧ (User.phone user = iu_phone body →
       getUserByUsername (iu_username body) (db w) = None →
       post_register otp_id otp body w
       = (message_json 400 "Phone number already registered", w)).
Proof.
  intros Hin. unfold post_register, insertUserSchema. run. split.
  - intros Hname.
    destruct (getUserByUsername _ _) as [u|] eqn:Hfound.
    + by rewrite bool_decide_eq_true_2.
    + pose proof (proj1 (getUserByUsername_None _ _ _ _) Hfound) as Hnone.
      by destruct (Hnone user Hin).
  - intros Hphone ->. rewrite bool_decide_eq_false_2 by (by intros [? ?]).
    run. destruct (getUserByPhone _ _) as [u|] eqn:Hfound.
    + by rewrite bool_decide_eq_true_2.
    + pose proof (proj1 (getUserByPhone_None _ _) Hfound) as Hnone.
      by destruct (Hnone user Hin).
Qed.

(** For a fresh name and phone, POST /api/register writes one OTP row
    (the code drawn, unverified, expiring fifteen minutes after the
    clock), sends the code in one message, and answers 200 or 500 by the
    gateway's report: the row is kept even when the message could not be
    sent. Users are untouched. *)
Theorem register_issues_otp (w : World) (otp_id : Z) (otp : string)
    (body : InsertUser) :
  getUserByUsername (iu_username body) (db w) = None →
  getUserByPhone (iu_phone body) (db w) = None →
  let call := CustomSms (iu_phone body) ("Your verification code is: " +:+ otp) in
  let sent := otpSent (fetch w (length (gateway_log w)) call) in
  let r := post_register otp_id otp body w in
  otps (db r.2)
  = otps (db w)
    ++ [Otp.mk otp_id (iu_phone body) otp (clock w + 900000) false (clock w)]
  ∧ users (db r.2) = users (db w)
  ∧ gateway_log r.2 = gateway_log w ++ [call]
  ∧ status r.1 = (if sent then 200 else 500).
Proof.
  intros Hname Hphone call sent r. subst r.
  unfold post_register, insertUserSchema. run.
  rewrite Hname. rewrite bool_decide_eq_false_2 by (by intros [? ?]).
  run. rewrite Hphone. rewrite bool_decide_eq_false_2 by (by intros [? ?]).
  run. fold call sent. by destruct sent.
Qed.

(** The whole registration: after POST /api/register for a fresh name and
    phone, POST /api/verify-otp with the code issued, within fifteen
    minutes, answers 200, and POST /api/complete-registration then
    answers 201 and stores the account with five credits, nothing sent,
    active. *)
Theorem registration_flow (w : World) (otp_id : Z) (otp : string)
    (body : InsertUser) (t1 t2 : Z) :
  getUserByUsername (iu_username body) (db w) = None →
  getUserByPhone (iu_phone body) (db w) = None →
  iu_username body ∉ User.username <$> users (db w) →
  (∀ o, o ∈ otps (db w) → Otp.phone o = iu_phone body →
        Otp.createdAt o < clock w) →
  validateOtpSchema (mkOtpBody (iu_phone body) otp) = true →
  t1 ≤ clock w + 900000 →
  let w1 := at_time t1 (post_register otp_id otp body w).2 in
  let r2 := post_verify_otp (mkOtpBody (iu_phone body) otp) w1 in
  let w2 := at_time t2 r2.2 in
  let r3 := post_complete_registration body w2 in
  login_error w2 (registered_user w2 body) = None →
  r2.1 = message_json 200 "Verification successful"
  ∧ r3.1 = mkResponse 201 (user_json (registered_user w2 body))
  ∧ users (db r3.2) = users (db w) ++ [registered_user w2 body]
  ∧ User.messagesRemaining (registered_user w2 body) = 5
  ∧ User.messagesSent (registered_user w2 body) = 0
  ∧ User.isActive (registered_user w2 body) = true.
Proof.
  intros Hname Hphone Hfree Holder Hschema Ht1 w1 r2 w2 r3 Hlogin.
  set (row := Otp.mk otp_id (iu_phone body) otp (clock w + 900000) false (clock w)).
  assert (Hlatest1 : getLatestOtp (iu_phone body) (db w1) = Some row).
  { subst w1. unfold post_register, insertUserSchema. run.
    rewrite Hname. rewrite bool_decide_eq_false_2 by (by intros [? ?]).
    run. rewrite Hphone. rewrite bool_decide_eq_false_2 by (by intros [? ?]).
    run.
    destruct (otpSent _); cbn [negb]; run; cbn [at_time db];
      by apply getLatestOtp_createOtp. }
  assert (Husers1 : users (db w1) = users (db w)).
  { subst w1. unfold post_register, insertUserSchema. run.
    rewrite Hname. rewrite bool_decide_eq_false_2 by (by intros [? ?]).
    run. rewrite Hphone. rewrite bool_decide_eq_false_2 by (by intros [? ?]).
    run. by destruct (otpSent _). }
  assert (Hrun2 : r2 = (message_json 200 "Verification successful",
                        set_db (verifyOtp otp_id) w1)).
  { subst r2. unfold post_verify_otp. run. rewrite Hschema. run.
    cbn [otp_phone otp_code]. rewrite Hlatest1. cbn [Otp.verified row]. run.
    cbn [Otp.expiresAt row].
    replace (clock w1) with t1 by done.
    destruct (Z.ltb_spec (clock w + 900000) t1); [lia|].
    cbn [Otp.code]. rewrite decide_False by (by intros ?). by run. }
  assert (Hlatest2 : getLatestOtp (iu_phone body) (db w2)
                     = Some (Otp.set_verified true row)).
  { subst w2. rewrite Hrun2. cbn [snd at_time db set_db].
    by apply (getLatestOtp_verifyOtp _ _ row). }
  assert (Husers2 : users (db w2) = users (db w)).
  { subst w2. rewrite Hrun2. cbn [snd at_time db set_db]. by rewrite <- Husers1. }
  split; [by rewrite Hrun2|].
  assert (Hfree2 : iu_username body ∉ User.username <$> users (db w2))
    by by rewrite Husers2.
  destruct (createUser_fresh
    (mkInsertUser (iu_username body) (hashPassword w2 (iu_password body))
       (iu_fullName body) (iu_phone body) (iu_isAdmin body))
    (clock w2) (db w2) Hfree2) as [Hcreated Husers3].
  cbn [iu_username iu_password iu_fullName iu_phone iu_isAdmin] in Hcreated,
    Husers3.
  fold (registered_user w2 body) in Hcreated, Husers3.
  subst r3. unfold post_complete_registration, insertUserSchema. run.
  rewrite Hlatest2. cbn [from_option Otp.set_verified Otp.verified negb]. run.
  rewrite Hcreated. run. rewrite Hlogin. run.
  split; [done|]. split; [|done]. by rewrite Husers3, Husers2.
Qed.

(** Asking again supersedes: right after POST /api/register has issued a
    code, POST /api/complete-registration for that phone answers 400
    "Phone not verified", even when an earlier code of the phone had been
    verified. *)
Theorem register_supersedes_verified_code (w : World) (otp_id : Z)
    (otp : string) (body : InsertUser) (t1 : Z) :
  getUserByUsername (iu_username body) (db w) = None →
  getUserByPhone (iu_phone body) (db w) = None →
  (∀ o, o ∈ otps (db w) → Otp.phone o = iu_phone body →
        Otp.createdAt o < clock w) →
  let w1 := at_time t1 (post_register otp_id otp body w).2 in
  post_complete_registration body w1
  = (message_json 400 "Phone not verified", w1).
Proof.
  intros Hname Hphone Holder w1.
  set (row := Otp.mk otp_id (iu_phone body) otp (clock w + 900000) false (clock w)).
  assert (Hlatest1 : getLatestOtp (iu_phone body) (db w1) = Some row).
  { subst w1. unfold post_register, insertUserSchema. run.
    rewrite Hname. rewrite bool_decide_eq_false_2 by (by intros [? ?]).
    run. rewrite Hphone. rewrite bool_decide_eq_false_2 by (by intros [? ?]).
    run.
    destruct (otpSent _); cbn [negb]; run; cbn [at_time db];
      by apply getLatestOtp_createOtp. }
  unfold post_complete_registration, insertUserSchema. run.
  by rewrite Hlatest1.
Qed.
End registration.

(** A code can be used once: after POST /api/verify-otp has succeeded,
    the same request is answered 400 "Code already verified" and changes
    nothing, at whatever time it comes. *)
Theorem verify_otp_only_once (w : World) (body : OtpBody) (o : Otp.t) (t : Z) :
  validateOtpSchema body = true →
  getLatestOtp (otp_phone body) (db w) = Some o →
  Otp.verified o = false →
  clock w ≤ Otp.expiresAt o →
  Otp.code o = otp_code body →
  let r := post_verify_otp body w in
  let w1 := at_time t r.2 in
  r.1 = message_json 200 "Verification successful"
  ∧ post_verify_otp body w1 = (message_json 400 "Code already verified", w1).
Proof.
  intros Hschema Hlatest Hfresh Hclock Hcode r w1.
  assert (Hrun : r = (message_json 200 "Verification successful",
                      set_db (verifyOtp (Otp.id o)) w)).
  { subst r. unfold post_verify_otp. run. rewrite Hschema. run.
    rewrite Hlatest, Hfresh. run.
    destruct (Z.ltb_spec (Otp.expiresAt o) (clock w)); [lia|].
    rewrite decide_False by (by intros ?). by run. }
  split; [by rewrite Hrun|].
  unfold post_verify_otp. run. rewrite Hschema. run.
  replace (db w1) with (verifyOtp (Otp.id o) (db w))
    by (subst w1; by rewrite Hrun).
  by rewrite (getLatestOtp_verifyOtp _ _ o).
Qed.

(** ** The protected-number registry *)

Lemma isNumberProtected_true phone d :
  isNumberProtected phone d = true
  ↔ phone ∈ ProtectedNumber.phone <$> protectedNumbers d.
Proof.
  unfold isNumberProtected. rewrite bool_decide_eq_true, list_elem_of_fmap.
  split.
  - intros Hlen.
    destruct (filter _ (protectedNumbers d)) as [|r rows] eqn:Hf;
      [cbn in Hlen; lia|].
    assert (r ∈ filter (λ r, ProtectedNumber.phone r = phone)
                (protectedNumbers d)) as Hin by (rewrite Hf; left).
    apply list_elem_of_filter in Hin as [? ?]. by exists r.
  - intros (r & -> & Hin).
    assert (r ∈ filter (λ r', ProtectedNumber.phone r' = ProtectedNumber.phone r)
                (protectedNumbers d)) as Hf by by apply list_elem_of_filter.
    destruct (filter _ (protectedNumbers d)); [by apply elem_of_nil in Hf|].
    cbn. lia.
Qed.

Lemma isNumberProtected_false phone d :
  isNumberProtected phone d = false
  ↔ phone ∉ ProtectedNumber.phone <$> protectedNumbers d.
Proof.
  rewrite <- isNumberProtected_true. by destruct (isNumberProtected phone d).
Qed.

Lemma createProtectedNumber_fresh id phone userId now d :
  isNumberProtected phone d = false →
  createProtectedNumber id phone userId now d
  = (inr (ProtectedNumber.mk id phone (or_null userId) now),
     set_protectedNumbers
       (λ rows, rows ++ [ProtectedNumber.mk id phone (or_null userId) now]) d).
Proof.
  intros Hfree%isNumberProtected_false. unfold createProtectedNumber.
  by rewrite decide_False.
Qed.

Lemma isNumberProtected_added phone' row d :
  isNumberProtected phone'
    (set_protectedNumbers (λ rows, rows ++ [row]) d)
  = isNumberProtected phone' d
    || bool_decide (phone' = ProtectedNumber.phone row).
Proof.
  apply eq_true_iff_eq. rewrite orb_true_iff, !isNumberProtected_true.
  rewrite bool_decide_eq_true. cbn [protectedNumbers set_protectedNumbers].
  rewrite fmap_app, elem_of_app. cbn. rewrite list_elem_of_singleton. done.
Qed.

Lemma isNumberProtected_deleted phone' phone d :
  isNumberProtected phone' (deleteProtectedNumber phone d)
  = isNumberProtected phone' d && bool_decide (phone' ≠ phone).
Proof.
  apply eq_true_iff_eq. rewrite andb_true_iff, !isNumberProtected_true.
  rewrite bool_decide_eq_true.
  unfold deleteProtectedNumber. cbn [protectedNumbers set_protectedNumbers].
  rewrite !list_elem_of_fmap. split.
  - intros (r & -> & [Hne Hin]%list_elem_of_filter). split; [by exists r|done].
  - intros [(r & -> & Hin) Hne]. exists r. split; [done|].
    by apply list_elem_of_filter.
Qed.

(** POST /api/admin/protect-number by an administrator, with a valid
    phone: a phone already in the registry is answered 400 and nothing
    changes; otherwise the answer is 200, the phone is protected from then
    on and the status of every other phone is as before. *)
Theorem admin_protect_number_effect (w : World) (id : Z) (session : option Z)
    (admin : User.t) (phone : string) :
  session_user session w = Some admin →
  User.isAdmin admin = true →
  protectNumberSchema phone = true →
  let r := post_admin_protect_number id session phone w in
  (isNumberProtected phone (db w) = true →
     r = (message_json 400 "This number is already protected", w))
  ∧ (isNumberProtected phone (db w) = false →
       status r.1 = 200
       ∧ isNumberProtected phone (db r.2) = true
       ∧ (∀ phone', phone' ≠ phone →
            isNumberProtected phone' (db r.2) = isNumberProtected phone' (db w))
       ∧ users (db r.2) = users (db w)
       ∧ gateway_log r.2 = gateway_log w).
Proof.
  intros Hsession Hadmin Hschema r. subst r. unfold post_admin_protect_number.
  rewrite run_deserializeUser, Hsession. run. rewrite Hadmin, Hschema. run.
  split; intros Hprot; rewrite Hprot; [done|]. run.
  rewrite createProtectedNumber_fresh by done. cbn [fst snd]. run.
  split; [done|]. split; [|split; [|done]].
  - rewrite isNumberProtected_added. cbn. rewrite bool_decide_eq_true_2 by done.
    apply orb_true_r.
  - intros phone' Hne. rewrite isNumberProtected_added. cbn.
    rewrite bool_decide_eq_false_2 by done. apply orb_false_r.
Qed.




(** POST /api/unprotect-my-number lifts the protection of the caller's
    phone whoever set it, the administrator included: when the phone is
    in the registry the answer is 200, no row of that phone is left and
    every other phone keeps its status. *)
Theorem unprotect_my_number_effect (w : World) (id : Z) (user : User.t) :
  getUser id (db w) = Some user →
  isNumberProtected (User.phone user) (db w) = true →
  let r := post_unprotect_my_number (Some id) w in
  r.1 = message_json 200 "Protection removed from your number"
  ∧ isNumberProtected (User.phone user) (db r.2) = false
  ∧ (∀ row, row ∈ protectedNumbers (db r.2) →
            row ∈ protectedNumbers (db w)
            ∧ ProtectedNumber.phone row ≠ User.phone user)
  ∧ (∀ phone, phone ≠ User.phone user →
       isNumberProtected phone (db r.2) = isNumberProtected phone (db w)).
Proof.
  intros Huser Hprot r. subst r. unfold post_unprotect_my_number. run.
  rewrite Huser. run. rewrite Hprot. cbn [negb]. run.
  split; [done|]. split; [|split].
  - rewrite isNumberProtected_deleted, Hprot.
    by rewrite bool_decide_eq_false_2 by (by intros ?).
  - intros row [? ?]%list_elem_of_filter. done.
  - intros phone Hne. rewrite isNumberProtected_deleted.
    rewrite bool_decide_eq_true_2 by done. apply andb_true_r.
Qed.

(** Once a user has protected their own number through
    /api/protect-my-number, no bomber request aimed at it has any effect,
    whoever sends it, an administrator included, and whenever: no gateway
    call and no write, on either bomber endpoint. *)
Theorem protect_my_number_blocks_bombers (w : World) (row_id : Z) (id : Z)
    (user : User.t) :
  getUser id (db w) = Some user →
  isNumberProtected (User.phone user) (db w) = false →
  let r := post_protect_my_number row_id (Some id) w in
  r.1 = message_json 200 "Your number has been protected from bomber messages"
  ∧ ∀ (now : Z) (session : option Z) (body : BomberBody),
      bo_phone body = User.phone user →
      (post_bomber session body (at_time now r.2)).2 = at_time now r.2
      ∧ (post_admin_bomber session body (at_time now r.2)).2 = at_time now r.2.
Proof.
  intros Huser Hfree r. subst r. unfold post_protect_my_number. run.
  rewrite Huser. run. rewrite Hfree. run.
  rewrite createProtectedNumber_fresh by done. cbn [fst snd]. run.
  split; [done|]. intros now session body Hphone.
  apply bomber_protected_no_effect. cbn [at_time db set_db]. rewrite Hphone.
  rewrite isNumberProtected_added. cbn.
  rewrite bool_decide_eq_true_2 by done. apply orb_true_r.
Qed.

(** Protecting a number that was not protected and then unprotecting it,
    through the admin routes, puts the database back exactly as it was. *)
Theorem admin_protect_unprotect_round_trip (w : World) (row_id : Z)
    (session : option Z) (admin : User.t) (phone : string) (now : Z) :
  session_user session w = Some admin →
  User.isAdmin admin = true →
  protectNumberSchema phone = true →
  isNumberProtected phone (db w) = false →
  let r1 := post_admin_protect_number row_id session phone w in
  let r2 := post_admin_unprotect_number session phone (at_time now r1.2) in
  status r1.1 = 200 ∧ status r2.1 = 200 ∧ db r2.2 = db w.
Proof.
  intros Hsession Hadmin Hschema Hfree r1 r2.
  set (row := ProtectedNumber.mk row_id phone (or_null None) (clock w)).
  assert (Hrun1 : r1 = (mkResponse 200 (JObj
            [("message", JStr "Number has been protected from bomber messages");
             ("phone", JStr phone)]),
            set_db (set_protectedNumbers (λ rows, rows ++ [row])) w)).
  { subst r1. unfold post_admin_protect_number.
    rewrite run_deserializeUser, Hsession. run. rewrite Hadmin, Hschema. run.
    rewrite Hfree. run.
    rewrite createProtectedNumber_fresh by done. cbn [fst snd]. by run. }
  split; [by rewrite Hrun1|].
  subst r2. rewrite Hrun1. cbn [snd]. unfold post_admin_unprotect_number.
  rewrite run_deserializeUser.
  replace (session_user session _) with (Some admin)
    by (rewrite <- Hsession; by destruct session).
  run. rewrite Hadmin. unfold unprotectNumberSchema.
  unfold protectNumberSchema in Hschema. rewrite Hschema. run.
  cbn [at_time db set_db]. rewrite isNumberProtected_added, Hfree. cbn [orb].
  rewrite bool_decide_eq_true_2 by done. cbn [negb]. run.
  split; [done|]. cbn [at_time db set_db].
  unfold deleteProtectedNumber, set_protectedNumbers. cbn [protectedNumbers].
  rewrite filter_app, filter_cons_False, filter_nil, app_nil_r
    by (cbn; by intros ?).
  apply isNumberProtected_false in Hfree.
  destruct (db w) as [us ms os ps s1 s2]. cbn [protectedNumbers] in *.
  cbn. f_equal.
  induction ps as [|p ps IH]; [done|].
  rewrite fmap_cons, not_elem_of_cons in Hfree. destruct Hfree as [Hp Hps].
  rewrite filter_cons_True by done. by rewrite IH.
Qed.

(** ** The message history *)

Global Instance newest_first_total : Total newest_first.
Proof. intros a b. unfold newest_first. lia. Qed.

Lemma elem_of_getUserMessages userId d m :
  m ∈ getUserMessages userId d ↔ m ∈ messages d ∧ Message.userId m = userId.
Proof.
  unfold getUserMessages. rewrite merge_sort_Permutation, list_elem_of_filter.
  tauto.
Qed.

(** [getUserMessages] returns the rows of that user and no others, each
    as often as it is stored, newest first. *)
Theorem getUserMessages_own_newest_first (userId : Z) (d : Db) :
  getUserMessages userId d
  ≡ₚ filter (λ m, Message.userId m = userId) (messages d)
  ∧ (∀ m, m ∈ getUserMessages userId d
          ↔ m ∈ messages d ∧ Message.userId m = userId)
  ∧ Sorted newest_first (getUserMessages userId d).
Proof.
  unfold getUserMessages.
  pose proof (merge_sort_Permutation newest_first
    (filter (λ m, Message.userId m = userId) (messages d))) as Hperm.
  split; [done|]. split.
  - intros m. apply elem_of_getUserMessages.
  - apply (Sorted_merge_sort newest_first).
Qed.

(** A message sent through /api/send-message shows up in the sender's
    GET /api/messages and in nobody else's: the other users' histories
    are the same lists as before. *)
Theorem sent_message_in_history (w : World) (id : Z) (user : User.t)
    (body : SendMessageBody) (now : Z) :
  getUser id (db w) = Some user →
  sendMessageSchema body = true →
  User.isActive user = true →
  0 < User.messagesRemaining user →
  success (customResult (fetch w (length (gateway_log w))
             (CustomSms (sm_phone body) (sm_message body)))) = true →
  let w1 := at_time now (post_send_message (Some id) body w).2 in
  let row := Message.mk (messages_id_seq (db w)) id (sm_phone body)
               (sm_message body) "sent" "custom" (clock w) in
  row ∈ getUserMessages id (db w1)
  ∧ (∃ rows, (get_messages (Some id) w1).1 = mkResponse 200 (JArr rows)
             ∧ message_row_json row ∈ rows)
  ∧ (∀ id', id' ≠ id →
       getUserMessages id' (db w1) = getUserMessages id' (db w)).
Proof.
  intros Huser Hschema Hactive Hcredit Hok w1 row.
  assert (User.id user = id) as Hid by by eapply getUser_id.
  assert (Hmessages : messages (db w1) = messages (db w) ++ [row]).
  { subst w1. unfold post_send_message. run.
    rewrite Huser, Hschema, Hactive. cbn [negb].
    destruct (Z.leb_spec (User.messagesRemaining user) 0); [lia|].
    run. rewrite Hok. cbn [negb]. run. cbn [at_time db set_db].
    rewrite messages_createMessage, messages_updateUserMessageCount.
    unfold createMessage. cbn [fst im_userId im_phone im_message im_type default
      from_option].
    unfold updateUserMessageCount. rewrite Hid.
    unfold getUser in Huser. rewrite Huser. by cbn. }
  assert (Hrow : row ∈ getUserMessages id (db w1)).
  { apply elem_of_getUserMessages. rewrite Hmessages.
    split; [|done]. apply elem_of_app. right. left. }
  assert (Huser1 : is_Some (getUser id (db w1))).
  { subst w1. unfold post_send_message. run.
    rewrite Huser, Hschema, Hactive. cbn [negb].
    destruct (Z.leb_spec (User.messagesRemaining user) 0); [lia|].
    run. rewrite Hok. cbn [negb]. run. cbn [at_time db set_db].
    rewrite Hid, getUser_createMessage.
    erewrite getUser_updateUserMessageCount by done. by eexists. }
  destruct Huser1 as [user1 Huser1].
  assert (User.id user1 = id) as Hid1 by by eapply getUser_id.
  split; [done|]. split.
  - unfold get_messages. run. rewrite Huser1. run. rewrite Hid1.
    eexists. split; [reflexivity|]. by apply list_elem_of_fmap_2.
  - intros id' Hne. unfold getUserMessages. rewrite Hmessages.
    rewrite filter_app, filter_cons_False, filter_nil, app_nil_r; [done|].
    cbn. congruence.
Qed.

(** POST /api/admin/delete-messages by an administrator with a non-empty
    list: afterwards no stored message carries one of the ids, the other
    messages are all kept, in their order, and users are untouched. The
    answer is 200 and its count is the length of the list sent, however
    many rows matched. Deleting a one-element list is the same as POST
    /api/admin/delete-message for that id. *)
Theorem admin_delete_messages_effect (w : World) (session : option Z)
    (admin : User.t) (ids : list Z) :
  session_user session w = Some admin →
  User.isAdmin admin = true →
  ids ≠ [] →
  let r := post_admin_delete_messages session ids w in
  r.1 = mkResponse 200 (JObj
    [("message", JStr (pretty (length ids) +:+ " messages deleted successfully"));
     ("count", JNum (Z.of_nat (length ids)))])
  ∧ (∀ m, m ∈ messages (db r.2)
          ↔ m ∈ messages (db w) ∧ Message.id m ∉ ids)
  ∧ messages (db r.2) `sublist_of` messages (db w)
  ∧ users (db r.2) = users (db w)
  ∧ (∀ id, ids = [id] →
       db r.2 = db (post_admin_delete_message session id w).2).
Proof.
  intros Hsession Hadmin Hne r. subst r.
  assert (Hsingle : ∀ id, db (post_admin_delete_message session id w).2
                          = deleteMessage id (db w)).
  { intros id. unfold post_admin_delete_message.
    rewrite run_deserializeUser, Hsession. run. rewrite Hadmin. by run. }
  unfold post_admin_delete_messages.
  rewrite !run_deserializeUser, Hsession. run. rewrite Hadmin.
  unfold deleteMessagesSchema.
  rewrite bool_decide_eq_true_2 by (destruct ids; [done|cbn; lia]). run.
  unfold deleteMessages. destruct ids as [|id0 ids]; [done|].
  cbn [set_messages messages users].
  split; [done|]. split; [|split; [|split; [done|]]].
  - intros m. rewrite list_elem_of_filter. tauto.
  - apply sublist_filter.
  - intros id [= -> ->]. rewrite Hsingle.
    unfold deleteMessage, set_messages. f_equal.
    apply list_filter_iff. intros m. rewrite list_elem_of_singleton. done.
Qed.

(** ** Credit requests *)


Lemma messages_addUserCredits id credits d :
  messages (addUserCredits id credits d) = messages d.
Proof. done. Qed.






(** ** The dashboard *)

(** The counters of the dashboard: active users are among the users,
    failed messages among the messages, and a message stored through
    [createMessage] is never counted as failed, whatever status the caller
    asked for. *)
Theorem dashboard_stats_bounds (d : Db) (insertMessage : InsertMessage) (now : Z) :
  let stats := getDashboardStats d in
  let stats' := getDashboardStats (createMessage insertMessage now d).2 in
  (activeUsers stats ≤ totalUsers stats)%nat
  ∧ (failedMessages stats ≤ totalMessages stats)%nat
  ∧ totalMessages stats' = S (totalMessages stats)
  ∧ failedMessages stats' = failedMessages stats.
Proof.
  cbn. repeat split.
  - apply length_filter.
  - apply length_filter.
  - rewrite length_app. cbn. lia.
  - rewrite filter_app, filter_cons_False, filter_nil, app_nil_r; [done|].
    cbn. by intros Hne.
Qed.

(** ** The further properties at work on the example deployment *)

Ltac by_computation := apply (bool_decide_unpack _); vm_compute; exact I.



(** A phone of nine characters, and a repeat count of zero. *)
Lemma invalid_body_rejected_witness :
  let w := example_world gateway_up in
  post_send_message (Some 1) (mkSendMessageBody "555222333" "hello") w
  = (message_json 400 "Validation error", w)
  ∧ post_admin_bomber (Some 1) (mkBomberBody "5552223333" 0 None) w
    = (message_json 400 "Validation error", w).
Proof.
  pose proof (invalid_body_rejected ascii_lower ascii_lower example_compare
                (example_world gateway_up) (Some 1) example_admin eq_refl)
    as (_ & Hsend & _ & _ & _ & Hadmin).
  destruct (Hadmin eq_refl) as (_ & Hbomber & _).
  exact (conj (Hsend (mkSendMessageBody "555222333" "hello") eq_refl)
              (Hbomber (mkBomberBody "5552223333" 0 None) eq_refl)).
Defined.



(** Nobody is called "mallory". *)
Lemma admin_unknown_username_witness :
  let w := example_world gateway_up in
  post_admin_toggle_user ascii_lower ascii_lower (Some 1)
    (mkToggleBody "mallory" false) w
  = (message_json 404 "User not found", w)
  ∧ post_admin_add_credits ascii_lower ascii_lower (Some 1)
      (mkCreditsBody "mallory" 5) w
    = (message_json 404 "User not found", w).
Proof.
  pose proof (admin_unknown_username ascii_lower ascii_lower
                (example_world gateway_up) (Some 1) example_admin "mallory"
                eq_refl eq_refl eq_refl) as (Hcredits & Htoggle).
  destruct (Hcredits 5 eq_refl) as [Hadd _].
  exact (conj (Htoggle false) Hadd).
Defined.

(** The example user is deactivated and tries to send. *)
Lemma deactivated_user_cannot_send_witness :
  let w1 := (post_admin_toggle_user ascii_lower ascii_lower (Some 1)
               (mkToggleBody "alice" false) (example_world gateway_up)).2 in
  post_send_message (Some 2) (mkSendMessageBody "5552223333" "hello") w1
  = (message_json 403 "Your account is disabled", w1).
Proof.
  assert (users_pk example_db) as Hpk by by_computation.
  pose proof (deactivated_user_cannot_send ascii_lower ascii_lower
                (example_world gateway_up) (Some 1) example_admin "alice"
                example_user Hpk eq_refl eq_refl eq_refl) as (_ & Hsend & _).
  exact (Hsend (mkSendMessageBody "5552223333" "hello") eq_refl).
Defined.

(** A bomber request against a gateway that is down. *)
Lemma bomber_gateway_failure_witness :
  let body := mkBomberBody "5552223333" 3 None in
  let r := post_bomber (Some 2) body (example_world gateway_down) in
  status r.1 = 500 ∧ db r.2 = example_db
  ∧ gateway_log r.2 = [BomberSms "5552223333" 3].
Proof.
  assert (3 ≤ 10) as Hcredit by lia.
  exact (bomber_gateway_failure (example_world gateway_down) 2 example_user
           (mkBomberBody "5552223333" 3 None)
           eq_refl eq_refl Hcredit eq_refl eq_refl eq_refl).
Defined.

(** An unknown name and a wrong password are answered alike. *)
Lemma login_refused_witness :
  let w := example_world gateway_up in
  post_login ascii_lower ascii_lower example_compare "mallory" "guess" w
  = (message_json 401 "Invalid username or password", None, w)
  ∧ post_login ascii_lower ascii_lower example_compare "alice" "guess" w
    = (message_json 401 "Invalid username or password", None, w).
Proof.
  assert ("mallory" ≠ "") as H1 by discriminate.
  assert ("alice" ≠ "") as H2 by discriminate.
  assert ("guess" ≠ "") as H3 by discriminate.
  pose proof (login_refused ascii_lower ascii_lower example_compare
                (example_world gateway_up) "mallory" "guess" H1 H3)
    as [Hunknown _].
  pose proof (login_refused ascii_lower ascii_lower example_compare
                (example_world gateway_up) "alice" "guess" H2 H3)
    as [_ Hknown].
  destruct (Hknown example_user eq_refl) as [_ Hwrong].
  exact (conj (Hunknown eq_refl) (Hwrong eq_refl eq_refl)).
Defined.

(** The example user logs in, in capitals, and asks who she is. *)
Lemma login_then_get_user_witness :
  let r := post_login ascii_lower ascii_lower example_compare
             "ALICE" "wonderland" (example_world gateway_up) in
  r.1 = (mkResponse 200 (user_json example_user), Some 2)
  ∧ get_user r.1.2 r.2 = (mkResponse 200 (user_json example_user), r.2).
Proof.
  assert (users_pk example_db) as Hpk by by_computation.
  assert ("ALICE" ≠ "") as H1 by discriminate.
  assert ("wonderland" ≠ "") as H2 by discriminate.
  pose proof (login_then_get_user ascii_lower ascii_lower example_compare
                (example_world gateway_up) "ALICE" "wonderland" example_user
                Hpk H1 H2 eq_refl eq_refl eq_refl eq_refl)
    as (Hanswer & _ & _ & Hget).
  exact (conj Hanswer Hget).
Defined.


(** "ALICE" is taken, and so is the example user's phone. *)
Lemma register_refuses_duplicates_witness :
  let w := example_world gateway_up in
  post_register ascii_lower ascii_lower 3 "111222"
    (mkInsertUser "ALICE" "secret-1" "Alice Again" "5553334444" None) w
  = (message_json 400 "Username already exists", w)
  ∧ post_register ascii_lower ascii_lower 3 "111222"
      (mkInsertUser "carol" "secret-2" "Carol Example" "5550001111" None) w
    = (message_json 400 "Phone number already registered", w).
Proof.
  assert (example_user ∈ users (db (example_world gateway_up))) as Hin
    by (right; left).
  pose proof (register_refuses_duplicates ascii_lower ascii_lower
    (example_world gateway_up) 3 "111222"
    (mkInsertUser "ALICE" "secret-1" "Alice Again" "5553334444" None)
    example_user Hin) as [Hname _].
  pose proof (register_refuses_duplicates ascii_lower ascii_lower
    (example_world gateway_up) 3 "111222"
    (mkInsertUser "carol" "secret-2" "Carol Example" "5550001111" None)
    example_user Hin) as [_ Hphone].
  exact (conj (Hname eq_refl) (Hphone eq_refl eq_refl)).
Defined.

(** The gateway is down: the answer is 500 and the code is stored. *)
Lemma register_issues_otp_witness :
  let body := mkInsertUser "carol" "secret-2" "Carol Example" "5553334444" None in
  let r := post_register ascii_lower ascii_lower 3 "111222" body
             (example_world gateway_down) in
  status r.1 = 500
  ∧ otps (db r.2)
    = otps example_db ++ [Otp.mk 3 "5553334444" "111222" 901000 false 1000].
Proof.
  pose proof (register_issues_otp ascii_lower ascii_lower
    (example_world gateway_down) 3 "111222"
    (mkInsertUser "carol" "secret-2" "Carol Example" "5553334444" None)
    eq_refl eq_refl) as (Hotps & _ & _ & Hstatus).
  exact (conj Hstatus Hotps).
Defined.

Lemma example_otps_older (now : Z) :
  900 < now →
  ∀ o, o ∈ otps example_db → Otp.phone o = "5557770000" → Otp.createdAt o < now.
Proof.
  intros Hnow o Hin _. cbn in Hin.
  repeat (apply elem_of_cons in Hin as [->|Hin]; [cbn; lia|]).
  by apply elem_of_nil in Hin.
Qed.

(** Carol registers the phone that holds two older codes, verifies the
    new code a minute later and completes the registration. *)
Lemma registration_flow_witness :
  let body := mkInsertUser "carol" "secret-2" "Carol Example" "5557770000" None in
  let w1 := at_time 61000 (post_register ascii_lower ascii_lower 3 "111222" body
                             (example_world gateway_up)).2 in
  let r2 := post_verify_otp (mkOtpBody "5557770000" "111222") w1 in
  let r3 := post_complete_registration body (at_time 122000 r2.2) in
  r2.1 = message_json 200 "Verification successful"
  ∧ status r3.1 = 201
  ∧ length (users (db r3.2)) = 3%nat.
Proof.
  assert ("carol" ∉ User.username <$> users example_db) as Hfree
    by by_computation.
  assert (61000 ≤ 1000 + 900000) as Ht1 by lia.
  assert (900 < 1000) as Hnow by lia.
  pose proof (registration_flow ascii_lower ascii_lower
    (example_world gateway_up) 3 "111222"
    (mkInsertUser "carol" "secret-2" "Carol Example" "5557770000" None)
    61000 122000 eq_refl eq_refl Hfree (example_otps_older 1000 Hnow)
    eq_refl Ht1 eq_refl) as (Hverify & Hanswer & Husers & _).
  split; [exact Hverify|]. split.
  - exact (f_equal status Hanswer).
  - exact (f_equal length Husers).
Defined.

(** The phone's verified code would let a registration complete; asking
    for a new code first takes that away. *)
Lemma register_supersedes_verified_code_witness :
  let body := mkInsertUser "carol" "secret-2" "Carol Example" "5557770000" None in
  let w1 := at_time 5000001 (post_register ascii_lower ascii_lower 3 "111222"
                               body example_world_late).2 in
  status (post_complete_registration body example_world_late).1 = 201
  ∧ post_complete_registration body w1
    = (message_json 400 "Phone not verified", w1).
Proof.
  split; [reflexivity|].
  assert (900 < 5000000) as Hnow by lia.
  assert (Holder : ∀ o, o ∈ otps (db example_world_late) →
            Otp.phone o = "5557770000" → Otp.createdAt o < 5000000).
  { intros o Hin _.
    assert (otps (db example_world_late)
            = [Otp.mk 1 "5557770000" "123456" 900500 false 500;
               Otp.mk 2 "5557770000" "654321" 900900 true 900]) as Hrows
      by reflexivity.
    rewrite Hrows in Hin.
    repeat (apply elem_of_cons in Hin as [->|Hin]; [cbn; lia|]).
    by apply elem_of_nil in Hin. }
  exact (register_supersedes_verified_code ascii_lower ascii_lower
    example_world_late 3 "111222"
    (mkInsertUser "carol" "secret-2" "Carol Example" "5557770000" None)
    5000001 eq_refl eq_refl Holder).
Defined.

(** The newer code of the example is verified, then submitted again. *)
Lemma verify_otp_only_once_witness :
  let body := mkOtpBody "5557770000" "654321" in
  let r := post_verify_otp body (example_world gateway_up) in
  r.1 = message_json 200 "Verification successful"
  ∧ post_verify_otp body (at_time 2000 r.2)
    = (message_json 400 "Code already verified", at_time 2000 r.2).
Proof.
  assert (1000 ≤ 900900) as Hclock by lia.
  exact (verify_otp_only_once (example_world gateway_up)
           (mkOtpBody "5557770000" "654321")
           (Otp.mk 2 "5557770000" "654321" 900900 false 900) 2000
           eq_refl eq_refl eq_refl Hclock eq_refl).
Defined.

(** One number is protected already, another is not yet. *)
Lemma admin_protect_number_effect_witness :
  let w := example_world gateway_up in
  post_admin_protect_number 2 (Some 1) "5559998888" w
  = (message_json 400 "This number is already protected", w)
  ∧ isNumberProtected "5552223333" (db w) = false
  ∧ isNumberProtected "5552223333"
      (db (post_admin_protect_number 2 (Some 1) "5552223333" w).2) = true.
Proof.
  pose proof (admin_protect_number_effect (example_world gateway_up) 2
                (Some 1) example_admin "5559998888" eq_refl eq_refl eq_refl)
    as [Hdup _].
  pose proof (admin_protect_number_effect (example_world gateway_up) 2
                (Some 1) example_admin "5552223333" eq_refl eq_refl eq_refl)
    as [_ Hnew].
  destruct (Hnew eq_refl) as (_ & Hprot & _).
  exact (conj (Hdup eq_refl) (conj eq_refl Hprot)).
Defined.


(** The administrator protects the example user's phone; she lifts the
    protection herself. *)
Lemma unprotect_my_number_effect_witness :
  let w1 := (post_admin_protect_number 2 (Some 1) "5550001111"
               (example_world gateway_up)).2 in
  let r := post_unprotect_my_number (Some 2) w1 in
  ProtectedNumber.userId <$> protectedNumbers (db w1) = [None; None]
  ∧ isNumberProtected "5550001111" (db w1) = true
  ∧ r.1 = message_json 200 "Protection removed from your number"
  ∧ isNumberProtected "5550001111" (db r.2) = false.
Proof.
  split; [reflexivity|]. split; [reflexivity|].
  pose proof (unprotect_my_number_effect
    (post_admin_protect_number 2 (Some 1) "5550001111"
       (example_world gateway_up)).2 2 example_user eq_refl eq_refl)
    as (Hanswer & Hgone & _).
  exact (conj Hanswer Hgone).
Defined.

(** The example user protects her number; the administrator's bomber
    request for it changes nothing. *)
Lemma protect_my_number_blocks_bombers_witness :
  let r := post_protect_my_number 2 (Some 2) (example_world gateway_up) in
  let body := mkBomberBody "5550001111" 3 (Some "wake up") in
  status r.1 = 200
  ∧ (post_admin_bomber (Some 1) body (at_time 2000 r.2)).2 = at_time 2000 r.2.
Proof.
  pose proof (protect_my_number_blocks_bombers (example_world gateway_up) 2 2
                example_user eq_refl eq_refl) as [Hanswer Hblocked].
  destruct (Hblocked 2000 (Some 1)
              (mkBomberBody "5550001111" 3 (Some "wake up")) eq_refl)
    as [_ Hadmin].
  split; [exact (f_equal status Hanswer)|exact Hadmin].
Defined.

(** Protect, then unprotect. *)
Lemma admin_protect_unprotect_round_trip_witness :
  let r1 := post_admin_protect_number 2 (Some 1) "5552223333"
              (example_world gateway_up) in
  let r2 := post_admin_unprotect_number (Some 1) "5552223333"
              (at_time 2000 r1.2) in
  status r1.1 = 200 ∧ status r2.1 = 200 ∧ db r2.2 = example_db.
Proof.
  exact (admin_protect_unprotect_round_trip (example_world gateway_up) 2
           (Some 1) example_admin "5552223333" 2000
           eq_refl eq_refl eq_refl eq_refl).
Defined.

(** The example user sends a message and reads her history; the
    administrator's history is still empty. *)
Lemma sent_message_in_history_witness :
  let body := mkSendMessageBody "5552223333" "see you at eight" in
  let w1 := at_time 2000 (post_send_message (Some 2) body
                            (example_world gateway_up)).2 in
  Message.mk 1 2 "5552223333" "see you at eight" "sent" "custom" 1000
  ∈ getUserMessages 2 (db w1)
  ∧ getUserMessages 1 (db w1) = [].
Proof.
  assert (0 < 10) as Hcredit by lia.
  pose proof (sent_message_in_history (example_world gateway_up) 2
    example_user (mkSendMessageBody "5552223333" "see you at eight") 2000
    eq_refl eq_refl eq_refl Hcredit eq_refl) as (Hmine & _ & Hothers).
  split; [exact Hmine|].
  assert (1 ≠ 2) as Hne by lia.
  exact (Hothers 1 Hne).
Defined.

(** One message is stored; two ids are sent for deletion. *)
Lemma admin_delete_messages_effect_witness :
  let w1 := (post_send_message (Some 2)
               (mkSendMessageBody "5552223333" "see you at eight")
               (example_world gateway_up)).2 in
  let r := post_admin_delete_messages (Some 1) [1; 99] w1 in
  length (messages (db w1)) = 1%nat
  ∧ r.1 = mkResponse 200 (JObj
      [("message", JStr "2 messages deleted successfully");
       ("count", JNum 2)])
  ∧ messages (db r.2) `sublist_of` messages (db w1).
Proof.
  split; [reflexivity|].
  assert ([1; 99] ≠ @nil Z) as Hne by discriminate.
  pose proof (admin_delete_messages_effect
    (post_send_message (Some 2)
       (mkSendMessageBody "5552223333" "see you at eight")
       (example_world gateway_up)).2 (Some 1)
    (User.set_ledger 5 0 0 example_admin) [1; 99] eq_refl eq_refl Hne)
    as (Hanswer & _ & Hsub & _).
  exact (conj Hanswer Hsub).
Defined.



(** A debit, a removal larger than the balance and an addition, on the
    example database. *)
Lemma ledger_nonnegative_witness :
  balances_nonnegative
    (foldl ledger_step example_db
       [Debit 2 1000; RemoveCredits 2 100; AddCredits 2 3]).
Proof.
  assert (Forall adds_nonnegative
            [Debit 2 1000; RemoveCredits 2 100; AddCredits 2 3]) as Hops.
  { repeat constructor. cbn. lia. }
  assert (balances_nonnegative example_db) as Hdb.
  { repeat constructor; cbn; lia. }
  exact (ledger_nonnegative _ _ Hops Hdb).
Defined.

(** The latest code of the example phone is the one created at 900. *)
Lemma getLatestOtp_latest_witness :
  let o := Otp.mk 2 "5557770000" "654321" 900900 false 900 in
  getLatestOtp "5557770000" example_db = Some o
  ∧ o ∈ otps example_db
  ∧ ∀ o', o' ∈ otps example_db → Otp.phone o' = "5557770000" →
          Otp.createdAt o' ≤ 900.
Proof.
  split; [reflexivity|].
  pose proof (getLatestOtp_latest "5557770000" example_db
                (Otp.mk 2 "5557770000" "654321" 900900 false 900) eq_refl)
    as (Hin & _ & Hlatest).
  exact (conj Hin Hlatest).
Defined.
